(** * mce_scraper.py: the fetch controller of the MCE compound scraper

    A shallow embedding of [MCECompoundScraper] (src/mce_scraper.py): the
    retry loop of [fetch_page], the rate check, the user-agent rotation, the
    page loop of [scrape_multiple_pages] and the record filter of
    [parse_compounds].

    Everything the script asks of the outside (the clock, the random
    generator, the network, the signal that cuts a sleep short, the disk and
    the HTML parser) is answered by a [World]; the script's own state is a
    [Session] that also keeps the trace of what the script did: its sleeps,
    its requests and its dump files.

    Left out: the log lines; the rounding of floating-point numbers (times
    are rationals); exceptions out of bs4; and the saving of the results,
    which no method of the scraper reads back. *)

From Stdlib Require Import ZArith QArith List String Ascii Bool Lia Lqa.
From Stdlib Require Import DecimalString.
From Stdlib Require DecimalZ DecimalPos.
Import ListNotations.

Local Open Scope string_scope.
Local Open Scope Z_scope.

(** ** Exceptions and results *)

(** The exception classes the script tells apart.  [RequestException] stands
    for every [requests.RequestException] that is neither a [Timeout] nor a
    [ConnectionError] ([HTTPError] from [raise_for_status] among them);
    [OtherException] for any other subclass of [Exception] ([OSError],
    [ValueError], [IndexError], ...).  [KeyboardInterrupt] is not a subclass
    of [Exception]. *)
Inductive exn : Type :=
| Timeout
| ConnectionError
| RequestException
| KeyboardInterrupt
| OtherException.

Inductive outcome (A : Type) : Type :=
| Normal (a : A)
| Raise (e : exn).
Arguments Normal {A} a.
Arguments Raise {A} e.

Definition is_Normal {A} (o : outcome A) : bool :=
  match o with Normal _ => true | Raise _ => false end.

(** ** What the script observes and what it does *)

(** Outcome of one [session.get]. *)
Inductive reply : Type :=
| Response (status_code : Z) (text : string)
| GetRaises (e : exn).

(** The three places that call [time.sleep]. *)
Inductive site : Type :=
| Throttle      (* _check_rate_limit *)
| Backoff       (* fetch_page *)
| Politeness.   (* _random_delay *)

Inductive event : Type :=
| Sleep (why : site) (secs : Q)
| Get (url user_agent : string)
| Dump (filename html : string).

(** [tag] is the type of BeautifulSoup nodes; see [BeautifulSoup] below. *)
Record World (tag : Type) : Type := {
  elapsed : nat -> Q;          (* seconds since start_time at the n-th reading of the clock *)
  randbits : nat -> Z;         (* n-th draw of the random generator *)
  http : nat -> reply;         (* n-th session.get *)
  sigint : nat -> bool;        (* is the n-th time.sleep cut short by Ctrl-C? *)
  disk : nat -> option exn;    (* n-th write of a dump file: None when it goes through *)
  html_parser : string -> tag  (* BeautifulSoup(html, 'html.parser') *)
}.
Arguments elapsed {tag} w n.
Arguments randbits {tag} w n.
Arguments http {tag} w n.
Arguments sigint {tag} w n.
Arguments disk {tag} w n.
Arguments html_parser {tag} w html.

(** The attributes of a scraper object that its methods read or write,
    then how far the run has read into each stream of the world, then the
    trace. *)
Record Session : Type := {
  delay_range : Q * Q;
  max_retries : Z;
  request_count : Z;
  user_agent : string;       (* headers['User-Agent'] *)
  clock_reads : nat;
  draws : nat;
  gets : nat;
  sleeps : nat;
  writes : nat;
  trace : list event
}.

Definition base_url : string := "https://www.medchemexpress.cn".

Definition user_agents : list string :=
  [ "Mozilla/5.0 (Windows NT 10.0; Win64; x64) AppleWebKit/537.36 (KHTML, like Gecko) Chrome/120.0.0.0 Safari/537.36";
    "Mozilla/5.0 (Windows NT 10.0; Win64; x64; rv:121.0) Gecko/20100101 Firefox/121.0";
    "Mozilla/5.0 (Macintosh; Intel Mac OS X 10_15_7) AppleWebKit/537.36 (KHTML, like Gecko) Chrome/120.0.0.0 Safari/537.36";
    "Mozilla/5.0 (X11; Linux x86_64) AppleWebKit/537.36 (KHTML, like Gecko) Chrome/120.0.0.0 Safari/537.36" ].

(** [MCECompoundScraper.__init__] *)
Definition init (delay_range : Q * Q) (max_retries : Z) : Session :=
  {| delay_range := delay_range;
     max_retries := max_retries;
     request_count := 0;
     user_agent := "Mozilla/5.0 (Windows NT 10.0; Win64; x64) AppleWebKit/537.36 (KHTML, like Gecko) Chrome/120.0.0.0 Safari/537.36";
     clock_reads := 0; draws := 0; gets := 0; sleeps := 0; writes := 0;
     trace := [] |}.

(** Field updates. *)
Definition set_request_count (n : Z) (s : Session) : Session :=
  {| delay_range := delay_range s; max_retries := max_retries s;
     request_count := n; user_agent := user_agent s;
     clock_reads := clock_reads s; draws := draws s; gets := gets s;
     sleeps := sleeps s; writes := writes s; trace := trace s |}.

Definition set_user_agent (ua : string) (s : Session) : Session :=
  {| delay_range := delay_range s; max_retries := max_retries s;
     request_count := request_count s; user_agent := ua;
     clock_reads := clock_reads s; draws := draws s; gets := gets s;
     sleeps := sleeps s; writes := writes s; trace := trace s |}.

Definition tick_clock (s : Session) : Session :=
  {| delay_range := delay_range s; max_retries := max_retries s;
     request_count := request_count s; user_agent := user_agent s;
     clock_reads := S (clock_reads s); draws := draws s; gets := gets s;
     sleeps := sleeps s; writes := writes s; trace := trace s |}.

Definition tick_draws (s : Session) : Session :=
  {| delay_range := delay_range s; max_retries := max_retries s;
     request_count := request_count s; user_agent := user_agent s;
     clock_reads := clock_reads s; draws := S (draws s); gets := gets s;
     sleeps := sleeps s; writes := writes s; trace := trace s |}.

Definition tick_gets (s : Session) : Session :=
  {| delay_range := delay_range s; max_retries := max_retries s;
     request_count := request_count s; user_agent := user_agent s;
     clock_reads := clock_reads s; draws := draws s; gets := S (gets s);
     sleeps := sleeps s; writes := writes s; trace := trace s |}.

Definition tick_sleeps (s : Session) : Session :=
  {| delay_range := delay_range s; max_retries := max_retries s;
     request_count := request_count s; user_agent := user_agent s;
     clock_reads := clock_reads s; draws := draws s; gets := gets s;
     sleeps := S (sleeps s); writes := writes s; trace := trace s |}.

Definition tick_writes (s : Session) : Session :=
  {| delay_range := delay_range s; max_retries := max_retries s;
     request_count := request_count s; user_agent := user_agent s;
     clock_reads := clock_reads s; draws := draws s; gets := gets s;
     sleeps := sleeps s; writes := S (writes s); trace := trace s |}.

Definition log (ev : event) (s : Session) : Session :=
  {| delay_range := delay_range s; max_retries := max_retries s;
     request_count := request_count s; user_agent := user_agent s;
     clock_reads := clock_reads s; draws := draws s; gets := gets s;
     sleeps := sleeps s; writes := writes s; trace := (trace s ++ [ev])%list |}.

(** ** A state and exception monad *)

Definition M (A : Type) : Type := Session -> outcome A * Session.

Definition ret {A} (a : A) : M A := fun s => (Normal a, s).

Definition raise {A} (e : exn) : M A := fun s => (Raise e, s).

Definition bind {A B} (m : M A) (k : A -> M B) : M B :=
  fun s =>
    match m s with
    | (Normal a, s') => k a s'
    | (Raise e, s') => (Raise e, s')
    end.

(** [try: m  except ...: handler e]; the handler re-raises what no clause
    of the source catches. *)
Definition try_except {A} (m : M A) (handler : exn -> M A) : M A :=
  fun s =>
    match m s with
    | (Normal a, s') => (Normal a, s')
    | (Raise e, s') => handler e s'
    end.

Definition read {A} (f : Session -> A) : M A := fun s => (Normal (f s), s).

Definition modify (f : Session -> Session) : M unit := fun s => (Normal tt, f s).

Declare Scope monad_scope.
Delimit Scope monad_scope with monad.
Notation "x <- m ;; k" := (bind m (fun x => k))
  (at level 61, m at next level, right associativity) : monad_scope.
Notation "m ;; k" := (bind m (fun _ => k))
  (at level 61, right associativity) : monad_scope.
Open Scope monad_scope.

(** [n] consecutive integers from [a] on. *)
Fixpoint count_from (a : Z) (n : nat) : list Z :=
  match n with
  | O => []
  | S n' => a :: count_from (a + 1) n'
  end.

(** [range(a, b)] and [range(n)] *)
Definition range2 (a b : Z) : list Z := count_from a (Z.to_nat (b - a)).

Definition range (n : Z) : list Z := range2 0 n.

(** [str(n)] for an int *)
Definition str (n : Z) : string := NilZero.string_of_int (Z.to_int n).

(** [random.random()]: 53 random bits over 2^53, a number in [0, 1). *)
Definition random_random (r : Z) : Q :=
  Qmake (r mod 2 ^ 53) (Z.to_pos (2 ^ 53)).

(** [random.uniform(a, b)] is [a + (b - a) * random()]. *)
Definition random_uniform (a b : Q) (r : Z) : Q :=
  (a + (b - a) * random_random r)%Q.

(** [random.choice(seq)] is [seq[randbelow(len(seq))]]; it raises
    [IndexError] on an empty sequence. *)
Definition random_choice {A} (l : list A) (r : Z) : option A :=
  match l with
  | [] => None
  | _ => nth_error l (Z.to_nat (r mod Z.of_nat (List.length l)))
  end.

(** [Response.raise_for_status]: [HTTPError] for 4xx and 5xx, nothing
    otherwise. *)
Definition raise_for_status (status_code : Z) : M unit :=
  if (400 <=? status_code) && (status_code <? 600)
  then raise RequestException
  else ret tt.

(** ** Compound records and the BeautifulSoup interface *)

(** A compound record is a Python dict from field names to strings; the
    association list keeps the order of insertion, as a dict does. *)
Definition dict : Type := list (string * string).

Fixpoint dict_set (k v : string) (d : dict) : dict :=
  match d with
  | [] => [(k, v)]
  | (k', v') :: d' =>
      if String.eqb k k' then (k, v) :: d' else (k', v') :: dict_set k v d'
  end.

Fixpoint dict_get (k : string) (d : dict) : option string :=
  match d with
  | [] => None
  | (k', v) :: d' => if String.eqb k k' then Some v else dict_get k d'
  end.

Definition len {A} (l : list A) : Z := Z.of_nat (List.length l).

(** [s.startswith(p)] *)
Definition startswith (s p : string) : bool := String.prefix p s.

(** Truth value of a string: [if text:] *)
Definition nonempty (s : string) : bool :=
  match s with EmptyString => false | _ => true end.

(** The part of bs4 that [parse_compounds] calls.  A keyword filter such as
    [class_='c'] or [id='i'] is passed as [("class", "c")], [("id", "i")]. *)
Class BeautifulSoup (tag : Type) : Type := {
  find : tag -> string -> list (string * string) -> option tag;
      (* t.find(name, **filters): first matching descendant, or None *)
  find_all_children : tag -> string -> list tag;
      (* t.find_all(name, recursive=False) *)
  get_text : tag -> string;
      (* t.get_text(strip=True) *)
  get : tag -> string -> string -> string
      (* t.get(key, default) *)
}.

Section Scraper.

Context {tag : Type} `{BeautifulSoup tag}.
Variable w : World tag.

(** [time.sleep(secs)]: [ValueError] for a negative length; otherwise the
    call blocks, and Ctrl-C during it raises [KeyboardInterrupt]. *)
Definition time_sleep (why : site) (secs : Q) : M unit :=
  fun s =>
    if Qlt_le_dec secs 0 then (Raise OtherException, s)
    else
      let s' := log (Sleep why secs) (tick_sleeps s) in
      if sigint w (sleeps s) then (Raise KeyboardInterrupt, s')
      else (Normal tt, s').

(** [self.session.get(url, headers=self.headers, timeout=30)] *)
Definition session_get (url : string) : M (Z * string) :=
  fun s =>
    let s' := log (Get url (user_agent s)) (tick_gets s) in
    match http w (gets s) with
    | Response status_code text => (Normal (status_code, text), s')
    | GetRaises e => (Raise e, s')
    end.

(** [(datetime.now() - self.start_time).total_seconds()] *)
Definition elapsed_seconds : M Q :=
  fun s => (Normal (elapsed w (clock_reads s)), tick_clock s).

Definition _random_delay : M unit :=
  fun s =>
    let delay :=
      random_uniform (fst (delay_range s)) (snd (delay_range s))
                     (randbits w (draws s)) in
    time_sleep Politeness delay (tick_draws s).

Definition _rotate_user_agent : M unit :=
  fun s =>
    match random_choice user_agents (randbits w (draws s)) with
    | Some ua => (Normal tt, set_user_agent ua (tick_draws s))
    | None => (Raise OtherException, s)
    end.

Definition _check_rate_limit : M unit :=
  elapsed_time <- elapsed_seconds ;;
  if Qlt_le_dec 0 elapsed_time then
    request_count <- read request_count ;;
    let rate := (inject_Z request_count / elapsed_time)%Q in
    if Qlt_le_dec (1 # 2) rate then time_sleep Throttle 2 else ret tt
  else ret tt.

(** The body of the [try] in [fetch_page].  [Some v] is [return v];
    [None] is falling off the end of the body, on to the next attempt. *)
Definition fetch_try (url : string) (attempt : Z) : M (option (option string)) :=
  _check_rate_limit ;;
  _rotate_user_agent ;;
  response <- session_get url ;;
  n <- read request_count ;;
  modify (set_request_count (n + 1)) ;;
  let '(status_code, text) := response in
  if status_code =? 200 then ret (Some (Some text))
  else if status_code =? 429 then
    let wait_time := 60 * (attempt + 1) in
    time_sleep Backoff (inject_Z wait_time) ;;
    ret None
  else if status_code =? 403 then ret (Some None)
  else raise_for_status status_code ;; ret None.

(** The three [except] clauses of [fetch_page]. *)
Definition fetch_except (attempt : Z) (e : exn) : M (option (option string)) :=
  match e with
  | Timeout =>
      max_retries <- read max_retries ;;
      (if attempt <? max_retries - 1
       then time_sleep Backoff (inject_Z (5 * (attempt + 1)))
       else ret tt) ;;
      ret None
  | ConnectionError =>
      max_retries <- read max_retries ;;
      (if attempt <? max_retries - 1
       then time_sleep Backoff (inject_Z (10 * (attempt + 1)))
       else ret tt) ;;
      ret None
  | RequestException =>
      max_retries <- read max_retries ;;
      (if attempt <? max_retries - 1
       then time_sleep Backoff (inject_Z (5 * (attempt + 1)))
       else ret tt) ;;
      ret None
  | e => raise e
  end.

(** One turn of the [for attempt in range(self.max_retries)] loop. *)
Definition fetch_attempt (url : string) (attempt : Z) : M (option (option string)) :=
  try_except (fetch_try url attempt) (fetch_except attempt).

Fixpoint fetch_loop (url : string) (attempts : list Z) : M (option string) :=
  match attempts with
  | [] => ret None
  | attempt :: rest =>
      r <- fetch_attempt url attempt ;;
      match r with
      | Some v => ret v
      | None => fetch_loop url rest
      end
  end.

(** [fetch_page]: the page's text, or [None] on failure. *)
Definition fetch_page (url : string) : M (option string) :=
  max_retries <- read max_retries ;;
  fetch_loop url (range max_retries).

(** *** parse_compounds *)

(** Product number and link. *)
Definition parse_catalog (item : tag) (compound_data : dict) : dict :=
  match find item "dt" [("class", "dnr_pro_list_cat")] with
  | Some cat_no_tag =>
      match find cat_no_tag "a" [] with
      | Some cat_link =>
          let compound_data :=
            dict_set "catalog_no" (get_text cat_link) compound_data in
          let href := get cat_link "href" "" in
          if startswith href "/"
          then dict_set "url" (base_url ++ href) compound_data
          else compound_data
      | None => compound_data
      end
  | None => compound_data
  end.

(** English and Chinese names. *)
Definition parse_name (item : tag) (compound_data : dict) : dict :=
  match find item "th" [("class", "dnr_pro_list_name")] with
  | Some name_tag =>
      let compound_data :=
        match find name_tag "strong" [] with
        | Some strong_tag => dict_set "name_en" (get_text strong_tag) compound_data
        | None => compound_data
        end in
      match find name_tag "p" [("id", "list-name-cn")] with
      | Some cn_name_tag =>
          match find cn_name_tag "a" [] with
          | Some cn_link => dict_set "name_cn" (get_text cn_link) compound_data
          | None => compound_data
          end
      | None => compound_data
      end
  | None => compound_data
  end.

(** CAS number, purity and description share one shape: the field is set
    when the tag is there and its text is not empty. *)
Definition parse_text (item : tag) (name class_ key : string)
    (compound_data : dict) : dict :=
  match find item name [("class", class_)] with
  | Some t =>
      let text := get_text t in
      if nonempty text then dict_set key text compound_data else compound_data
  | None => compound_data
  end.

(** Link of the structure image. *)
Definition parse_structure (item : tag) (compound_data : dict) : dict :=
  match find item "dt" [("class", "dnr_pro_list_structure")] with
  | Some structure_tag =>
      match find structure_tag "img" [] with
      | Some img_tag =>
          let img_src := get img_tag "src" "" in
          let img_src :=
            if startswith img_src "//" then "https:" ++ img_src else img_src in
          dict_set "structure_image" img_src compound_data
      | None => compound_data
      end
  | None => compound_data
  end.

(** What one turn of [for item in product_items] builds. *)
Definition parse_item (item : tag) : dict :=
  let compound_data := [] in
  let compound_data := parse_catalog item compound_data in
  let compound_data := parse_name item compound_data in
  let compound_data := parse_text item "th" "dnr_pro_list_cas" "cas_no" compound_data in
  let compound_data := parse_text item "th" "dnr_pro_list_purity" "purity" compound_data in
  let compound_data := parse_text item "td" "dnr_pro_list_brief" "description" compound_data in
  let compound_data := parse_structure item compound_data in
  compound_data.

Fixpoint parse_items (product_items : list tag) (compounds : list dict) : list dict :=
  match product_items with
  | [] => compounds
  | item :: rest =>
      let compound_data := parse_item item in
      if len compound_data >? 2
      then parse_items rest (compounds ++ [compound_data])%list
      else parse_items rest compounds
  end.

(** The [li] children of the list container, when the page has one. *)
Definition product_items (html : string) : option (list tag) :=
  let soup := html_parser w html in
  match find soup "ul" [("class", "sub_ctg_list_con")] with
  | Some compound_list => Some (find_all_children compound_list "li")
  | None => None
  end.

Definition parse_compounds (html : string) : list dict :=
  if negb (nonempty html) then []
  else
    match product_items html with
    | None => []
    | Some product_items => parse_items product_items []
    end.

(** *** scrape_page *)

(** [with open(filename, 'w') as f: f.write(html)] *)
Definition write_file (filename html : string) : M unit :=
  fun s =>
    match disk w (writes s) with
    | None => (Normal tt, log (Dump filename html) (tick_writes s))
    | Some e => (Raise e, tick_writes s)
    end.

Definition page_url (page_num : Z) : string :=
  base_url ++ "/NaturalProducts/endogenous-metabolites.html?page=" ++ str page_num.

Definition scrape_page (page_num : Z) : M (list dict) :=
  let url := page_url page_num in
  html <- fetch_page url ;;
  match html with
  | None => ret []
  | Some html =>
      if negb (nonempty html) then ret []
      else
        let filename := "page_" ++ str page_num ++ "_raw.html" in
        write_file filename html ;;
        let compounds := parse_compounds html in
        ret compounds
  end.

(** *** scrape_multiple_pages *)

Inductive flow : Type :=
| Next      (* on to the next page: the end of the body, or [continue] *)
| Break.

(** [except KeyboardInterrupt: break] and [except Exception: continue]. *)
Definition pages_except (e : exn) : flow :=
  match e with
  | KeyboardInterrupt => Break
  | _ => Next
  end.

(** One turn of [for page_num in range(start_page, end_page + 1)], with
    the list [all_compounds] as it stands when the turn ends. *)
Definition pages_turn (end_page page_num : Z) (all_compounds : list dict)
    (s : Session) : flow * list dict * Session :=
  match scrape_page page_num s with
  | (Raise e, s1) => (pages_except e, all_compounds, s1)
  | (Normal compounds, s1) =>
      let all_compounds := (all_compounds ++ compounds)%list in
      if page_num <? end_page then
        match _random_delay s1 with
        | (Raise e, s2) => (pages_except e, all_compounds, s2)
        | (Normal _, s2) => (Next, all_compounds, s2)
        end
      else (Next, all_compounds, s1)
  end.

(** The loop over [pages]; the flow says how it ended: [Break] when a
    [break] left it, [Next] when it ran through all the pages. *)
Fixpoint pages_loop (end_page : Z) (pages : list Z) (all_compounds : list dict)
    (s : Session) : flow * list dict * Session :=
  match pages with
  | [] => (Next, all_compounds, s)
  | page_num :: rest =>
      match pages_turn end_page page_num all_compounds s with
      | (Break, all_compounds, s') => (Break, all_compounds, s')
      | (Next, all_compounds, s') => pages_loop end_page rest all_compounds s'
      end
  end.

Definition scrape_multiple_pages (start_page end_page : Z) : M (list dict) :=
  fun s =>
    let '(_, all_compounds, s') :=
      pages_loop end_page (range2 start_page (end_page + 1)) [] s in
    (Normal all_compounds, s').

End Scraper.

Arguments parse_item {tag _} item.
Arguments parse_items {tag _} product_items compounds.

(** ** A small document model behind the BeautifulSoup interface

    Enough of bs4 to run the scraper on a page: elements with attributes and
    children, and text.  The theorems below do not depend on it; they hold
    for every implementation of the interface. *)
Module Dom.

#[warnings="-register-all"]
Inductive node : Type :=
| Elem (name : string) (attrs : list (string * string)) (children : list node)
| Text (s : string).

Definition is_space (c : ascii) : bool :=
  let n := nat_of_ascii c in
  ((9 <=? n) && (n <=? 13) || (28 <=? n) && (n <=? 32))%nat.

Fixpoint lstrip (s : string) : string :=
  match s with
  | String c s' => if is_space c then lstrip s' else s
  | EmptyString => EmptyString
  end.

Fixpoint rstrip (s : string) : string :=
  match s with
  | String c s' =>
      match rstrip s' with
      | EmptyString => if is_space c then EmptyString else String c EmptyString
      | r => String c r
      end
  | EmptyString => EmptyString
  end.

Definition strip (s : string) : string := rstrip (lstrip s).

(** [s.split()]: the words between runs of white space.  [cur] is the word
    being read. *)
Fixpoint split_from (cur : string) (s : string) : list string :=
  match s with
  | EmptyString => if nonempty cur then [cur] else []
  | String c s' =>
      if is_space c
      then (if nonempty cur then cur :: split_from "" s' else split_from "" s')
      else split_from (cur ++ String c "") s'
  end.

Definition split (s : string) : list string := split_from "" s.

Definition attr (k : string) (attrs : list (string * string)) : option string :=
  dict_get k attrs.

(** One keyword filter: [class] matches any one of the classes of the
    element, every other attribute matches its whole value. *)
Definition filter_ok (attrs : list (string * string)) (f : string * string) : bool :=
  let '(k, v) := f in
  match attr k attrs with
  | Some x =>
      if String.eqb k "class"
      then existsb (String.eqb v) (split x) || String.eqb v x
      else String.eqb v x
  | None => false
  end.

Definition matches (name : string) (filters : list (string * string)) (n : node) : bool :=
  match n with
  | Elem nm attrs _ => String.eqb nm name && forallb (filter_ok attrs) filters
  | Text _ => false
  end.

(** The nodes below [n], in document order. *)
Fixpoint descendants (n : node) : list node :=
  match n with
  | Elem _ _ children =>
      (fix below (l : list node) : list node :=
         match l with
         | [] => []
         | c :: l' => ((c :: descendants c) ++ below l')%list
         end) children
  | Text _ => []
  end.

Definition find_first (n : node) (name : string) (filters : list (string * string)) : option node :=
  List.find (matches name filters) (descendants n).

Definition children_named (n : node) (name : string) : list node :=
  match n with
  | Elem _ _ children => List.filter (matches name []) children
  | Text _ => []
  end.

Definition own_text (n : node) : string :=
  match n with
  | Text s => strip s
  | Elem _ _ _ => ""
  end.

Definition text_of (n : node) : string :=
  String.concat "" (map own_text (n :: descendants n)).

Definition attr_or (n : node) (key default : string) : string :=
  match n with
  | Elem _ attrs _ =>
      match attr key attrs with Some v => v | None => default end
  | Text _ => default
  end.

#[global] Instance soup : BeautifulSoup node :=
  {| find := find_first;
     find_all_children := children_named;
     get_text := text_of;
     get := attr_or |}.

End Dom.

(** ** Reading a trace *)

(** What a trace says about the retry loop: the requests and the waits of
    [fetch_page] between them.  The pauses of the rate check are left
    out. *)
Inductive step : Type :=
| Request (url : string)
| Wait (secs : Q).

Fixpoint steps (evs : list event) : list step :=
  match evs with
  | [] => []
  | Get url _ :: evs' => Request url :: steps evs'
  | Sleep Backoff secs :: evs' => Wait secs :: steps evs'
  | _ :: evs' => steps evs'
  end.

(** The number of requests among the steps. *)
Definition requests (l : list step) : nat :=
  List.length (filter (fun st => match st with Request _ => true | Wait _ => false end) l).

(** What a trace says about the page loop: the pages dumped and the delays
    of [_random_delay]. *)
Inductive mark : Type :=
| Page (filename : string)
| Delay (secs : Q).

Fixpoint pace (evs : list event) : list mark :=
  match evs with
  | [] => []
  | Dump filename _ :: evs' => Page filename :: pace evs'
  | Sleep Politeness secs :: evs' => Delay secs :: pace evs'
  | _ :: evs' => pace evs'
  end.

(** The pauses of the rate check in a trace. *)
Fixpoint pauses (evs : list event) : list Q :=
  match evs with
  | [] => []
  | Sleep Throttle secs :: evs' => secs :: pauses evs'
  | _ :: evs' => pauses evs'
  end.

(** The user agents sent, request by request. *)
Fixpoint agents (evs : list event) : list string :=
  match evs with
  | [] => []
  | Get _ ua :: evs' => ua :: agents evs'
  | _ :: evs' => agents evs'
  end.

(** The user agent that [random.choice(self.user_agents)] picks on the
    draw [r]. *)
Definition chosen_ua (r : Z) : string :=
  nth (Z.to_nat (r mod 4)) user_agents "".
Arguments chosen_ua : simpl never.

(** The test of [_check_rate_limit]: does a session that has made [count]
    requests in [elapsed_time] seconds run faster than one request in two
    seconds? *)
Definition throttled (count : Z) (elapsed_time : Q) : bool :=
  if Qlt_le_dec 0 elapsed_time then
    if Qlt_le_dec (1 # 2) (inject_Z count / elapsed_time) then true else false
  else false.

(** What the rate check adds to the trace. *)
Definition throttle_events (count : Z) (elapsed_time : Q) : list event :=
  if throttled count elapsed_time then [Sleep Throttle 2] else [].

(** The replies by what [fetch_page] does with them; the lemma
    [fetch_attempt_spec] below checks the three readings against the code.

    Replies after which the loop goes on to the next attempt. *)
Definition retried (r : reply) : bool :=
  match r with
  | Response status_code _ => negb (status_code =? 200) && negb (status_code =? 403)
  | GetRaises Timeout | GetRaises ConnectionError | GetRaises RequestException => true
  | GetRaises _ => false
  end.

(** 1 when [session.get] returned a response, 0 when it raised. *)
Definition responded (r : reply) : Z :=
  match r with
  | Response _ _ => 1
  | GetRaises _ => 0
  end.

(** The sleep of [fetch_page] after an attempt, by reply. *)
Definition backoff_events (max_retries attempt : Z) (r : reply) : list event :=
  let unless_last (secs : Z) :=
    if attempt <? max_retries - 1
    then [Sleep Backoff (inject_Z (secs * (attempt + 1)))] else [] in
  match r with
  | Response status_code _ =>
      if status_code =? 200 then []
      else if status_code =? 429 then [Sleep Backoff (inject_Z (60 * (attempt + 1)))]
      else if status_code =? 403 then []
      else if (400 <=? status_code) && (status_code <? 600) then unless_last 5
      else []
  | GetRaises Timeout => unless_last 5
  | GetRaises ConnectionError => unless_last 10
  | GetRaises RequestException => unless_last 5
  | GetRaises _ => []
  end.

(** How one attempt ends, by reply: a [return], the next attempt, or an
    exception that no clause catches. *)
Definition verdict (r : reply) : outcome (option (option string)) :=
  match r with
  | Response status_code text =>
      if status_code =? 200 then Normal (Some (Some text))
      else if status_code =? 403 then Normal (Some None)
      else Normal None
  | GetRaises Timeout | GetRaises ConnectionError | GetRaises RequestException =>
      Normal None
  | GetRaises e => Raise e
  end.

(** The session after the rate check, also when Ctrl-C cuts its pause
    short. *)
Definition after_check {tag} (w : World tag) (s : Session) : Session :=
  if throttled (request_count s) (elapsed w (clock_reads s))
  then log (Sleep Throttle 2) (tick_sleeps (tick_clock s))
  else tick_clock s.

(** *** Runs of the retry loop, read off the world *)

Section Reading.

Context {tag : Type}.
Variable w : World tag.

(** How many of the [n] requests from the [g]-th on get a response. *)
Fixpoint responses (g : nat) (n : nat) : Z :=
  match n with
  | O => 0
  | S n' => responded (http w g) + responses (S g) n'
  end.

(** The requests and waits of the loop over [attempts] when every one of
    them is retried, the first request being the [g]-th. *)
Fixpoint retry_steps (url : string) (max_retries : Z) (attempts : list Z)
    (g : nat) : list step :=
  match attempts with
  | [] => []
  | attempt :: rest =>
      (Request url :: steps (backoff_events max_retries attempt (http w g))
         ++ retry_steps url max_retries rest (S g))%list
  end.

(** What one retried attempt leaves behind. *)
Record attempted (url : string) (attempt : Z) (s s1 : Session) : Prop := {
  att_max_retries : max_retries s1 = max_retries s;
  att_delay_range : delay_range s1 = delay_range s;
  att_writes : writes s1 = writes s;
  att_gets : gets s1 = S (gets s);
  att_clock : clock_reads s1 = S (clock_reads s);
  att_draws : draws s1 = S (draws s);
  att_count : request_count s1 = request_count s + responded (http w (gets s));
  att_agent : user_agent s1 = chosen_ua (randbits w (draws s));
  att_trace :
    trace s1 =
      (trace s ++ throttle_events (request_count s) (elapsed w (clock_reads s))
         ++ Get url (chosen_ua (randbits w (draws s)))
         :: backoff_events (max_retries s) attempt (http w (gets s)))%list
}.

(** What a run of retried attempts leaves behind. *)
Record retried_through (url : string) (attempts : list Z) (s s' : Session) : Prop := {
  thr_max_retries : max_retries s' = max_retries s;
  thr_delay_range : delay_range s' = delay_range s;
  thr_writes : writes s' = writes s;
  thr_gets : gets s' = (gets s + List.length attempts)%nat;
  thr_clock : clock_reads s' = (clock_reads s + List.length attempts)%nat;
  thr_draws : draws s' = (draws s + List.length attempts)%nat;
  thr_count :
    request_count s' = request_count s + responses (gets s) (List.length attempts);
  thr_trace :
    exists evs,
      trace s' = (trace s ++ evs)%list /\
      steps evs = retry_steps url (max_retries s) attempts (gets s) /\
      pace evs = []
}.

(** What one attempt leaves behind, however it ends. *)
Record attempt_frame (url : string) (s s' : Session) : Prop := {
  af_max_retries : max_retries s' = max_retries s;
  af_delay_range : delay_range s' = delay_range s;
  af_writes : writes s' = writes s;
  af_count : request_count s <= request_count s';
  af_clock : clock_reads s' = S (clock_reads s);
  af_trace :
    exists tl,
      trace s' =
        (trace s ++ throttle_events (request_count s) (elapsed w (clock_reads s))
           ++ tl)%list /\
      pace tl = [] /\ pauses tl = [] /\
      (agents tl = [] \/
       agents tl = [chosen_ua (randbits w (draws s))] /\ draws s' = S (draws s))
}.

(** What any method of the scraper leaves behind: the settings stand, the
    counter has not gone down, and the trace has grown by events that show
    the marks [marks], send user agents of the pool only, and pause for the
    rate check two seconds at a time. *)
Record frame (marks : list mark) (s s' : Session) : Prop := {
  fr_max_retries : max_retries s' = max_retries s;
  fr_delay_range : delay_range s' = delay_range s;
  fr_count : request_count s <= request_count s';
  fr_trace :
    exists evs,
      trace s' = (trace s ++ evs)%list /\
      pace evs = marks /\
      Forall (fun ua => In ua user_agents) (agents evs) /\
      Forall (fun secs => secs = 2%Q) (pauses evs)
}.

End Reading.

(** *** Runs of the page loop *)

(** The name of the file that [scrape_page] dumps a page into. *)
Definition dump_name (page_num : Z) : string :=
  "page_" ++ str page_num ++ "_raw.html".


Section Pages.

Context {tag : Type} `{BeautifulSoup tag}.
Variable w : World tag.

(** What each turn of the loop over [pages] adds to [all_compounds], turn by
    turn, up to the turn that leaves the loop. *)
Fixpoint pages_records (end_page : Z) (pages : list Z) (s : Session)
    : list (list dict) :=
  match pages with
  | [] => []
  | page_num :: rest =>
      match pages_turn w end_page page_num [] s with
      | (Break, compounds, _) => [compounds]
      | (Next, compounds, s') => compounds :: pages_records end_page rest s'
      end
  end.


End Pages.

(** *** Sequences of operations on one session *)

Inductive op : Type :=
| FetchPage (url : string)
| ScrapePage (page_num : Z)
| ScrapeMultiplePages (start_page end_page : Z)
| RandomDelay
| RotateUserAgent
| CheckRateLimit.

Section Operations.

Context {tag : Type} `{BeautifulSoup tag}.
Variable w : World tag.

(** The session after one operation, whether it returns or raises. *)
Definition run_op (o : op) (s : Session) : Session :=
  match o with
  | FetchPage url => snd (fetch_page w url s)
  | ScrapePage page_num => snd (scrape_page w page_num s)
  | ScrapeMultiplePages start_page end_page =>
      snd (scrape_multiple_pages w start_page end_page s)
  | RandomDelay => snd (_random_delay w s)
  | RotateUserAgent => snd (_rotate_user_agent w s)
  | CheckRateLimit => snd (_check_rate_limit w s)
  end.

Definition run_ops (ops : list op) (s : Session) : Session :=
  fold_left (fun s o => run_op o s) ops s.

End Operations.

(** *** Two sentences of the spec, as it words them *)

(** The spec on the request counter: a call of [fetch_page] that ends in a
    200 has counted every attempt it made. *)
Definition counts_every_attempt {tag : Type} (w : World tag) (url : string)
    (s : Session) : Prop :=
  forall (k : nat) (text : string),
    (k < Z.to_nat (max_retries s))%nat ->
    (forall i, (i < k)%nat -> retried (http w (gets s + i)) = true) ->
    http w (gets s + k) = Response 200 text ->
    exists s',
      fetch_page w url s = (Normal (Some text), s') /\
      request_count s' = request_count s + Z.of_nat (S k).

(** The spec on failures: a caller reads from a failure which status was
    seen last, and so tells a forbidden page from exhausted retries. *)
Definition failure_carries_status {tag : Type} (forbidden exhausted : World tag)
    (url : string) (s : Session) : Prop :=
  exists last_status : outcome (option string) -> Z,
    last_status (fst (fetch_page forbidden url s)) = 403 /\
    last_status (fst (fetch_page exhausted url s)) = 429.

(** ** Sample pages and worlds *)

Module Samples.

Import Dom.

(** One product of the list, as the site lays it out. *)
Definition product (cat name cas : string) : node :=
  Elem "li" []
    [ Elem "dl" []
        [ Elem "dt" [("class", "dnr_pro_list_cat fl")]
            [ Elem "a" [("href", "/" ++ cat ++ ".html")] [Text (" " ++ cat ++ " ")] ];
          Elem "table" []
            [ Elem "th" [("class", "dnr_pro_list_name")]
                [ Elem "strong" [] [Text name] ];
              Elem "th" [("class", "dnr_pro_list_cas")] [Text cas] ] ] ].

Definition page : node :=
  Elem "html" []
    [ Elem "body" []
        [ Elem "ul" [("class", "sub_ctg_list_con")]
            [ product "HY-N0830" "Glucose" "50-99-7";
              Text " ";
              product "HY-B0389" "" "";
              Elem "li" [] [ Elem "th" [("class", "dnr_pro_list_cas")] [Text "56-40-6"] ] ] ] ].

(** A world that answers the requests with [replies]; the clock shows one
    second more at each reading, nothing interrupts a sleep, the disk takes
    every file, and every page parses to [page]. *)
Definition world (replies : nat -> reply) : World node :=
  {| elapsed := fun n => inject_Z (Z.of_nat n);
     randbits := fun n => 7 * Z.of_nat n + 5;
     http := replies;
     sigint := fun _ => false;
     disk := fun _ => None;
     html_parser := fun _ => page |}.

(** The server answers 429 to everything. *)
Definition busy : World node := world (fun _ => Response 429 "Too Many Requests").

(** The server answers 204 to everything. *)
Definition empty_handed : World node := world (fun _ => Response 204 "").

(** The server answers 500 to everything. *)
Definition broken : World node := world (fun _ => Response 500 "Internal Server Error").

(** The server answers 403 to everything. *)
Definition blocked : World node := world (fun _ => Response 403 "Forbidden").

(** Two failures, then the server forbids. *)
Definition blocked_late : World node :=
  world (fun n =>
           match n with
           | 0%nat => GetRaises ConnectionError
           | 1%nat => Response 502 "Bad Gateway"
           | _ => Response 403 "Forbidden"
           end).

(** The first request times out, the second is answered. *)
Definition slow_start : World node :=
  world (fun n =>
           match n with
           | 0%nat => GetRaises Timeout
           | _ => Response 200 "<html>page</html>"
           end).

(** Every request is answered at once. *)
Definition healthy : World node := world (fun _ => Response 200 "<html>page</html>").

(** The first page is served; Ctrl-C comes during the request for the
    second. *)
Definition interrupted : World node :=
  world (fun n =>
           match n with
           | 0%nat => Response 200 "<html>page</html>"
           | _ => GetRaises KeyboardInterrupt
           end).

Definition scraper : Session := init (3 # 1, 6 # 1)%Q 3.

End Samples.

(** ** Tallies of a run *)

(** A step of the retry loop on [url] with [bound] attempts: a request goes
    to [url], a wait is positive and no longer than [60 * bound] seconds. *)
Definition step_within (url : string) (bound : Z) (st : step) : Prop :=
  match st with
  | Request u => u = url
  | Wait secs => (0 < secs /\ secs <= inject_Z (60 * bound))%Q
  end.

Section Tallies.
Context {tag : Type}.
Variable w : World tag.

(** Between [s] and [s'] the counter has grown by the number of requests
    that got a response. *)
Record counted (s s' : Session) : Prop := {
  cnt_gets : (gets s <= gets s')%nat;
  cnt_count :
    request_count s' = request_count s + responses w (gets s) (gets s' - gets s)
}.

(** What one attempt adds, however it ends: nothing of the loop's (Ctrl-C
    hit the pause of the rate check), or one request and at most one wait of
    5, 10 or 60 seconds times the number of the attempt. *)
Record attempt_tally (url : string) (attempt : Z) (s s' : Session) : Prop := {
  tally_trace :
    exists evs,
      trace s' = (trace s ++ evs)%list /\
      ((gets s' = gets s /\ request_count s' = request_count s /\ steps evs = [])
       \/ (gets s' = S (gets s) /\
           request_count s' = request_count s + responded (http w (gets s)) /\
           (steps evs = [Request url]
            \/ exists c, (c = 5 \/ c = 10 \/ c = 60) /\
                         steps evs = [Request url; Wait (inject_Z (c * (attempt + 1)))])))
}.

(** What a run of at most [n] attempts adds. *)
Record loop_tally (url : string) (bound : Z) (n : nat) (s s' : Session) : Prop := {
  lt_counted : counted s s';
  lt_gets : (gets s' <= gets s + n)%nat;
  lt_trace :
    exists evs,
      trace s' = (trace s ++ evs)%list /\
      Forall (step_within url bound) (steps evs) /\
      requests (steps evs) = (gets s' - gets s)%nat
}.

End Tallies.

(** A reply after which [fetch_page] waits [c] seconds times the number of
    the attempt, unless the attempt is the last. *)
Definition backs_off (c : Z) (r : reply) : Prop :=
  forall mr attempt,
    backoff_events mr attempt r =
      if attempt <? mr - 1
      then [Sleep Backoff (inject_Z (c * (attempt + 1)))] else [].

(** A mark of the page loop over [pages] with the delay range [(lo, hi)]:
    a dump is the dump of one of the pages, a delay is not negative and lies
    between the two ends of the range. *)
Definition mark_within (pages : list Z) (lo hi : Q) (m : mark) : Prop :=
  match m with
  | Page filename => exists p, In p pages /\ filename = dump_name p
  | Delay secs =>
      (0 <= secs)%Q /\
      ((lo <= secs /\ secs <= hi) \/ (hi <= secs /\ secs <= lo))%Q
  end.

(** The number of dumps and the number of delays among the marks. *)
Definition dumps (l : list mark) : nat :=
  List.length (filter (fun m => match m with Page _ => true | Delay _ => false end) l).

Definition delay_marks (l : list mark) : nat :=
  List.length (filter (fun m => match m with Page _ => false | Delay _ => true end) l).

Section PageTallies.
Context {tag : Type}.
Variable w : World tag.

(** What a run of the page loop over [pages] adds, however it ends. *)
Record pages_tally (end_page : Z) (pages : list Z) (s s' : Session) : Prop := {
  pt_counted : counted w s s';
  pt_gets :
    (gets s' <= gets s + List.length pages * Z.to_nat (max_retries s))%nat;
  pt_marks :
    exists marks,
      frame marks s s' /\
      Forall (mark_within pages (fst (delay_range s)) (snd (delay_range s))) marks /\
      (dumps marks <= List.length pages)%nat /\
      (delay_marks marks
       <= List.length (filter (fun p => Z.ltb p end_page) pages))%nat
}.
End PageTallies.

(** ** Reading a record *)

(** The keys of a record, in the order of the dict. *)
Definition keys (d : dict) : list string := map fst d.

(** [k in d] *)
Definition has_key (d : dict) (k : string) : bool :=
  match dict_get k d with Some _ => true | None => false end.

(** The fields of a record, in the order in which [parse_compounds] looks
    for them. *)
Definition field_names : list string :=
  [ "catalog_no"; "url"; "name_en"; "name_cn"; "cas_no"; "purity";
    "description"; "structure_image" ].

(** [d[k] = v] when there is a value to store. *)
Definition put (k : string) (o : option string) (d : dict) : dict :=
  match o with
  | Some v => dict_set k v d
  | None => d
  end.

(** ** More sample worlds *)

Module MoreSamples.

(** Every request times out. *)
Definition silent : World Dom.node := Samples.world (fun _ => GetRaises Timeout).

(** Every connection is refused. *)
Definition unreachable : World Dom.node :=
  Samples.world (fun _ => GetRaises ConnectionError).

(** A server error, then something that is no exception of [requests]. *)
Definition crashing : World Dom.node :=
  Samples.world (fun n =>
                   match n with
                   | 0%nat => Response 503 "Service Unavailable"
                   | _ => GetRaises OtherException
                   end).

End MoreSamples.

Module PageSamples.

(** The server answers with an empty page. *)
Definition blank : World Dom.node := Samples.world (fun _ => Response 200 "").

(** The server answers, but the disk is full. *)
Definition disk_full : World Dom.node :=
  {| elapsed := elapsed Samples.healthy;
     randbits := randbits Samples.healthy;
     http := http Samples.healthy;
     sigint := sigint Samples.healthy;
     disk := fun _ => Some OtherException;
     html_parser := html_parser Samples.healthy |}.

End PageSamples.

(** ** Basic facts *)

Ltac session_fields :=
  cbn [delay_range max_retries request_count user_agent clock_reads draws
       gets sleeps writes trace set_request_count set_user_agent tick_clock
       tick_draws tick_gets tick_sleeps tick_writes log].

Ltac eval_tests :=
  repeat match goal with
         | |- context [Z.eqb (Zpos ?p) (Zpos ?q)] =>
             let v := eval vm_compute in (Z.eqb (Zpos p) (Zpos q)) in
             change (Z.eqb (Zpos p) (Zpos q)) with v
         end;
  cbv beta iota zeta.

Ltac close_attempt :=
  eval_tests;
  eexists; split; [reflexivity|];
  constructor; unfold throttle_events, backoff_events;
  repeat match goal with
         | E : http _ _ = _ |- _ => rewrite !E; clear E
         | E : throttled _ _ = _ |- _ => rewrite !E; clear E
         | E : (_ =? _) = _ |- _ => rewrite !E; clear E
         | E : (_ <? _) = _ |- _ => rewrite !E; clear E
         | E : (_ && _)%bool = _ |- _ => rewrite !E; clear E
         end;
  eval_tests; session_fields; cbn [responded app];
  rewrite ?app_nil_r, <- ?app_assoc, ?Z.add_0_r; reflexivity.


Lemma steps_app (a b : list event) : steps (a ++ b) = (steps a ++ steps b)%list.
Proof.
  induction a as [|ev a IH]; simpl; [reflexivity|].
  destruct ev as [[] ?| |]; simpl; rewrite IH; reflexivity.
Qed.

Lemma pace_app (a b : list event) : pace (a ++ b) = (pace a ++ pace b)%list.
Proof.
  induction a as [|ev a IH]; simpl; [reflexivity|].
  destruct ev as [[] ?| |]; simpl; rewrite IH; reflexivity.
Qed.

Lemma agents_app (a b : list event) : agents (a ++ b) = (agents a ++ agents b)%list.
Proof.
  induction a as [|ev a IH]; simpl; [reflexivity|].
  destruct ev as [[] ?| |]; simpl; rewrite IH; reflexivity.
Qed.

Lemma pauses_app (a b : list event) : pauses (a ++ b) = (pauses a ++ pauses b)%list.
Proof.
  induction a as [|ev a IH]; simpl; [reflexivity|].
  destruct ev as [[] ?| |]; simpl; rewrite IH; reflexivity.
Qed.

Lemma agents_throttle count e : agents (throttle_events count e) = [].
Proof.
  unfold throttle_events. destruct (throttled count e); reflexivity.
Qed.

Lemma pauses_throttle count e :
  Forall (fun secs => secs = 2%Q) (pauses (throttle_events count e)).
Proof.
  unfold throttle_events. destruct (throttled count e); simpl; repeat constructor.
Qed.

Lemma steps_throttle count e : steps (throttle_events count e) = [].
Proof.
  unfold throttle_events. destruct (throttled count e); reflexivity.
Qed.

Lemma pace_throttle count e : pace (throttle_events count e) = [].
Proof.
  unfold throttle_events. destruct (throttled count e); reflexivity.
Qed.

Lemma pace_backoff mr attempt r : pace (backoff_events mr attempt r) = [].
Proof.
  unfold backoff_events.
  destruct r as [st text|[]]; try reflexivity;
    repeat match goal with |- context [if ?b then _ else _] => destruct b end;
    reflexivity.
Qed.

Lemma requests_backoff mr attempt r :
  requests (steps (backoff_events mr attempt r)) = 0%nat.
Proof.
  unfold backoff_events.
  destruct r as [st text|[]]; try reflexivity;
    repeat match goal with |- context [if ?b then _ else _] => destruct b end;
    reflexivity.
Qed.

Lemma requests_app (a b : list step) :
  requests (a ++ b) = (requests a + requests b)%nat.
Proof. unfold requests. rewrite filter_app, length_app. reflexivity. Qed.

Lemma requests_retry_steps {tag} (w : World tag) url mr (n : nat) :
  forall a g, requests (retry_steps w url mr (count_from a n) g) = n.
Proof.
  induction n as [|n IH]; intros a g; [reflexivity|].
  cbn [count_from retry_steps].
  change (requests (Request url :: ?l)) with (S (requests l)).
  rewrite requests_app, requests_backoff, IH. reflexivity.
Qed.

Lemma random_choice_user_agents (r : Z) :
  random_choice user_agents r = Some (chosen_ua r).
Proof.
  unfold random_choice, chosen_ua. simpl List.length.
  change (Z.of_nat 4) with 4.
  assert (Hr : (Z.to_nat (r mod 4) < 4)%nat).
  { pose proof (Z.mod_pos_bound r 4 ltac:(lia)). lia. }
  simpl user_agents.
  destruct (Z.to_nat (r mod 4)) as [|[|[|[|n]]]]; try reflexivity; lia.
Qed.

Lemma chosen_ua_in_pool (r : Z) : In (chosen_ua r) user_agents.
Proof.
  unfold chosen_ua.
  apply nth_In. simpl.
  pose proof (Z.mod_pos_bound r 4 ltac:(lia)). lia.
Qed.

Lemma count_from_length (a : Z) (n : nat) : List.length (count_from a n) = n.
Proof. revert a; induction n as [|n IH]; intros a; simpl; [|rewrite IH]; reflexivity. Qed.

Lemma count_from_nonneg (a : Z) (n : nat) :
  0 <= a -> Forall (fun k => 0 <= k) (count_from a n).
Proof.
  revert a; induction n as [|n IH]; intros a Ha; simpl; constructor; [exact Ha|].
  apply IH. lia.
Qed.

Lemma count_from_app (a : Z) (n m : nat) :
  count_from a (n + m) = (count_from a n ++ count_from (a + Z.of_nat n) m)%list.
Proof.
  revert a; induction n as [|n IH]; intros a.
  - simpl. rewrite Z.add_0_r. reflexivity.
  - cbn [Nat.add count_from app]. rewrite IH.
    replace (a + 1 + Z.of_nat n) with (a + Z.of_nat (S n)) by lia. reflexivity.
Qed.

Lemma range_count (n : Z) : range n = count_from 0 (Z.to_nat n).
Proof. unfold range, range2. rewrite Z.sub_0_r. reflexivity. Qed.

Lemma chosen_ua_residue (ua : string) :
  In ua user_agents ->
  exists i, 0 <= i < 4 /\ forall r, chosen_ua r = ua <-> r mod 4 = i.
Proof.
  assert (Hcases : forall r, r mod 4 = 0 \/ r mod 4 = 1 \/ r mod 4 = 2 \/ r mod 4 = 3).
  { intros r. pose proof (Z.mod_pos_bound r 4 ltac:(lia)). lia. }
  intros [ <- | [ <- | [ <- | [ <- | [] ] ] ] ];
    [exists 0|exists 1|exists 2|exists 3]; (split; [lia|]);
    intros r; unfold chosen_ua;
    destruct (Hcases r) as [ -> | [ -> | [ -> | -> ] ] ]; cbn [Z.to_nat Pos.to_nat Pos.iter_op Nat.add nth user_agents];
    split; intros Heq; first [reflexivity | discriminate Heq | lia].
Qed.

Lemma dict_get_set (k k' v : string) (d : dict) :
  dict_get k (dict_set k' v d) =
    if String.eqb k k' then Some v else dict_get k d.
Proof.
  induction d as [|[k0 v0] d IH]; [reflexivity|].
  cbn [dict_set].
  destruct (String.eqb_spec k' k0) as [->|Hne]; cbn [dict_get].
  - destruct (String.eqb k k0); reflexivity.
  - rewrite IH.
    destruct (String.eqb_spec k k0) as [->|_]; [|reflexivity].
    destruct (String.eqb_spec k0 k') as [->|_]; [contradiction|reflexivity].
Qed.

Lemma random_random_bounds (r : Z) : (0 <= random_random r /\ random_random r < 1)%Q.
Proof.
  unfold random_random, Qle, Qlt. cbn [Qnum Qden].
  pose proof (Z.mod_pos_bound r (2 ^ 53) ltac:(lia)) as Hb.
  rewrite Z2Pos.id by lia. lia.
Qed.

Lemma random_uniform_in_range (a b : Q) (r : Z) :
  (a <= b)%Q -> (a <= random_uniform a b r /\ random_uniform a b r <= b)%Q.
Proof.
  intros Hab. unfold random_uniform.
  destruct (random_random_bounds r) as [H0 H1].
  set (u := random_random r) in *.
  assert (Hd : (0 <= b - a)%Q) by lra.
  assert (Hlo : (0 <= (b - a) * u)%Q) by (apply Qmult_le_0_compat; assumption).
  assert (Hhi : ((b - a) * u <= (b - a) * 1)%Q).
  { rewrite !(Qmult_comm (b - a)). apply Qmult_le_compat_r; [lra|exact Hd]. }
  split; lra.
Qed.


Section Facts.

Context {tag : Type} `{BeautifulSoup tag}.
Variable w : World tag.

Lemma time_sleep_ok (why : site) (secs : Q) (s : Session) :
  (0 <= secs)%Q ->
  sigint w (sleeps s) = false ->
  time_sleep w why secs s = (Normal tt, log (Sleep why secs) (tick_sleeps s)).
Proof.
  intros Hsecs Hsig. unfold time_sleep.
  destruct (Qlt_le_dec secs 0) as [Hlt|_].
  - exfalso. apply (Qlt_not_le _ _ Hlt Hsecs).
  - rewrite Hsig. reflexivity.
Qed.

Lemma inject_Z_nonneg (z : Z) : 0 <= z -> (0 <= inject_Z z)%Q.
Proof. intros Hz. unfold Qle; simpl. lia. Qed.

Lemma check_rate_limit_ok (s : Session) :
  sigint w (sleeps s) = false ->
  _check_rate_limit w s = (Normal tt, after_check w s).
Proof.
  intros Hsig.
  unfold _check_rate_limit, after_check, throttled, bind, elapsed_seconds, read, ret.
  destruct (Qlt_le_dec 0 (elapsed w (clock_reads s))); [|reflexivity].
  simpl request_count.
  destruct (Qlt_le_dec _ _); [|reflexivity].
  apply time_sleep_ok; [unfold Qle; simpl; lia | exact Hsig].
Qed.

(** *** The parser *)

Lemma parse_catalog_get (k : string) (item : tag) (d : dict) :
  String.eqb k "catalog_no" = false -> String.eqb k "url" = false ->
  dict_get k (parse_catalog item d) = dict_get k d.
Proof.
  intros H1 H2. unfold parse_catalog.
  destruct (find item "dt" _); [|reflexivity].
  destruct (find t "a" _); [|reflexivity].
  destruct (startswith _ _); rewrite ?dict_get_set, ?H1, ?H2; reflexivity.
Qed.

Lemma parse_name_get (k : string) (item : tag) (d : dict) :
  String.eqb k "name_en" = false -> String.eqb k "name_cn" = false ->
  dict_get k (parse_name item d) = dict_get k d.
Proof.
  intros H1 H2. unfold parse_name.
  destruct (find item "th" _); [|reflexivity].
  destruct (find t "p" _) as [p|]; [destruct (find p "a" _)|];
    destruct (find t "strong" _); rewrite ?dict_get_set, ?H1, ?H2; reflexivity.
Qed.

Lemma parse_text_get (k : string) (item : tag) (name class_ key : string) (d : dict) :
  String.eqb k key = false ->
  dict_get k (parse_text item name class_ key d) = dict_get k d.
Proof.
  intros H1. unfold parse_text.
  destruct (find item name _); [|reflexivity].
  destruct (nonempty _); rewrite ?dict_get_set, ?H1; reflexivity.
Qed.

Lemma parse_structure_get (k : string) (item : tag) (d : dict) :
  String.eqb k "structure_image" = false ->
  dict_get k (parse_structure item d) = dict_get k d.
Proof.
  intros H1. unfold parse_structure.
  destruct (find item "dt" _); [|reflexivity].
  destruct (find t "img" _); rewrite ?dict_get_set, ?H1; reflexivity.
Qed.

Local Ltac skip_stages :=
  repeat first
    [ rewrite parse_structure_get by reflexivity
    | rewrite parse_text_get by reflexivity
    | rewrite parse_name_get by reflexivity
    | rewrite parse_catalog_get by reflexivity ].

(** A tag that the item lacks leaves its fields out of the record. *)
Lemma parse_item_absent (item : tag) :
  (find item "dt" [("class", "dnr_pro_list_cat")] = None ->
   dict_get "catalog_no" (parse_item item) = None /\
   dict_get "url" (parse_item item) = None) /\
  (find item "th" [("class", "dnr_pro_list_name")] = None ->
   dict_get "name_en" (parse_item item) = None /\
   dict_get "name_cn" (parse_item item) = None) /\
  (find item "th" [("class", "dnr_pro_list_cas")] = None ->
   dict_get "cas_no" (parse_item item) = None) /\
  (find item "th" [("class", "dnr_pro_list_purity")] = None ->
   dict_get "purity" (parse_item item) = None) /\
  (find item "td" [("class", "dnr_pro_list_brief")] = None ->
   dict_get "description" (parse_item item) = None) /\
  (find item "dt" [("class", "dnr_pro_list_structure")] = None ->
   dict_get "structure_image" (parse_item item) = None).
Proof.
  unfold parse_item.
  repeat split; intros;
    match goal with Hnone : find _ _ _ = None |- _ => rename Hnone into Hnone' end;
    skip_stages.
  - unfold parse_catalog. rewrite Hnone'. reflexivity.
  - unfold parse_catalog. rewrite Hnone'. reflexivity.
  - unfold parse_name at 1. rewrite Hnone'. skip_stages. reflexivity.
  - unfold parse_name at 1. rewrite Hnone'. skip_stages. reflexivity.
  - unfold parse_text at 1. rewrite Hnone'. skip_stages. reflexivity.
  - unfold parse_text at 1. rewrite Hnone'. skip_stages. reflexivity.
  - unfold parse_text at 1. rewrite Hnone'. skip_stages. reflexivity.
  - unfold parse_structure at 1. rewrite Hnone'. skip_stages. reflexivity.
Qed.

Lemma parse_items_filter (items : list tag) :
  forall compounds,
    parse_items items compounds =
      (compounds ++ filter (fun c => len c >? 2) (map parse_item items))%list.
Proof.
  induction items as [|item items IH]; intros compounds.
  - simpl. rewrite app_nil_r. reflexivity.
  - cbn [parse_items map filter].
    destruct (len (parse_item item) >? 2); rewrite IH; [|reflexivity].
    rewrite <- app_assoc. reflexivity.
Qed.

(** *** What every run leaves behind *)

Lemma check_rate_limit_any (s : Session) :
  exists o,
    _check_rate_limit w s = (o, after_check w s) /\
    (o = Normal tt \/
     o = Raise KeyboardInterrupt /\
     throttled (request_count s) (elapsed w (clock_reads s)) = true).
Proof.
  unfold _check_rate_limit, after_check, throttled, bind, elapsed_seconds, read, ret.
  destruct (Qlt_le_dec 0 (elapsed w (clock_reads s))); [|eexists; split; [reflexivity|left; reflexivity]].
  session_fields.
  destruct (Qlt_le_dec _ _); [|eexists; split; [reflexivity|left; reflexivity]].
  unfold time_sleep.
  destruct (Qlt_le_dec 2 0) as [Hneg|_]; [discriminate Hneg|].
  destruct (sigint w _); eexists; (split; [reflexivity|]); [right; split; reflexivity|left; reflexivity].
Qed.

Ltac split_sleep :=
  unfold time_sleep;
  match goal with
  | |- context [Qlt_le_dec ?a ?b] => destruct (Qlt_le_dec a b)
  end;
  [|match goal with
    | |- context [sigint w ?n] => destruct (sigint w n)
    end].

Ltac close_frame :=
  unfold ret, raise; cbv beta iota; cbn [snd]; constructor; unfold throttle_events;
  repeat match goal with
         | E : throttled _ _ = _ |- _ => rewrite !E; clear E
         end;
  session_fields; try reflexivity; try lia;
  eexists; split;
  [ rewrite <- ?app_assoc; cbn [app]; reflexivity
  | cbn [pace pauses agents]; session_fields;
    repeat split; first [left; reflexivity | right; split; reflexivity] ].

Lemma fetch_attempt_frame (url : string) (attempt : Z) (s : Session) :
  attempt_frame w url s (snd (fetch_attempt w url attempt s)).
Proof.
  unfold fetch_attempt, try_except, fetch_try, bind.
  destruct (check_rate_limit_any s) as (o & -> & [->|[-> Ht]]).
  2:{ unfold after_check. rewrite Ht. cbn [fetch_except]. unfold raise.
      close_frame. }
  unfold _rotate_user_agent. rewrite random_choice_user_agents.
  unfold session_get, read, modify, after_check.
  destruct (throttled _ _) eqn:Ht; session_fields;
    (destruct (http w (gets s)) as [st text|e]; session_fields;
     [ destruct (st =? 200); [close_frame|];
       destruct (st =? 429);
       [cbv beta; split_sleep; cbn [fetch_except]; unfold raise; close_frame|];
       destruct (st =? 403); [close_frame|];
       unfold raise_for_status;
       destruct ((400 <=? st) && (st <? 600)); [|close_frame];
       unfold raise, fetch_except, bind, read; session_fields;
       destruct (attempt <? max_retries s - 1); [split_sleep|]; close_frame
     | destruct e; unfold fetch_except, raise, bind, read; session_fields;
       try close_frame;
       (destruct (attempt <? max_retries s - 1); [split_sleep|]; close_frame) ]).
Qed.

Lemma frame_refl (s : Session) : frame [] s s.
Proof.
  constructor; try reflexivity; try lia.
  exists []. rewrite app_nil_r. repeat split; constructor.
Qed.

Lemma frame_trans (m1 m2 : list mark) (s s' s'' : Session) :
  frame m1 s s' -> frame m2 s' s'' -> frame (m1 ++ m2) s s''.
Proof.
  intros [Hmr Hdr Hc (evs & Htr & Hpace & Hua & Hp)]
         [Hmr' Hdr' Hc' (evs' & Htr' & Hpace' & Hua' & Hp')].
  constructor; try congruence; try lia.
  exists (evs ++ evs')%list. repeat split.
  - rewrite Htr', Htr, app_assoc. reflexivity.
  - rewrite pace_app, Hpace, Hpace'. reflexivity.
  - rewrite agents_app. apply Forall_app. split; assumption.
  - rewrite pauses_app. apply Forall_app. split; assumption.
Qed.

Lemma frame_step (m : list mark) (s s' s'' : Session) :
  frame [] s s' -> frame m s' s'' -> frame m s s''.
Proof. intros H1 H2. apply (frame_trans [] m s s' s'' H1 H2). Qed.

Lemma attempt_frame_frame (url : string) (s s' : Session) :
  attempt_frame w url s s' -> frame [] s s'.
Proof.
  intros [Hmr Hdr Hwr Hc Hcl (tl & Htr & Hpace & Hp & Hua)].
  constructor; try assumption.
  eexists. split; [exact Htr|]. repeat split.
  - rewrite pace_app, pace_throttle, Hpace. reflexivity.
  - rewrite agents_app, agents_throttle. simpl.
    destruct Hua as [->|[-> _]]; [constructor|].
    constructor; [apply chosen_ua_in_pool|constructor].
  - rewrite pauses_app, Hp, app_nil_r. apply pauses_throttle.
Qed.

Lemma fetch_loop_frame (url : string) (attempts : list Z) :
  forall s,
    frame [] s (snd (fetch_loop w url attempts s)) /\
    writes (snd (fetch_loop w url attempts s)) = writes s.
Proof.
  induction attempts as [|attempt rest IH]; intros s.
  - simpl. split; [apply frame_refl|reflexivity].
  - cbn [fetch_loop]. unfold bind.
    pose proof (fetch_attempt_frame url attempt s) as Hatt.
    destruct (fetch_attempt w url attempt s) as [[[v|]|e] s1]; cbn [snd] in *.
    + unfold ret. cbn [snd]. split; [|apply (af_writes _ _ _ _ Hatt)].
      apply (attempt_frame_frame _ _ _ Hatt).
    + destruct (IH s1) as [Hfr Hwr]. split.
      * apply (frame_step _ _ _ _ (attempt_frame_frame _ _ _ Hatt) Hfr).
      * rewrite Hwr. apply (af_writes _ _ _ _ Hatt).
    + split; [|apply (af_writes _ _ _ _ Hatt)].
      apply (attempt_frame_frame _ _ _ Hatt).
Qed.

Lemma fetch_page_frame (url : string) (s : Session) :
  frame [] s (snd (fetch_page w url s)) /\
  writes (snd (fetch_page w url s)) = writes s.
Proof. unfold fetch_page, bind, read. apply fetch_loop_frame. Qed.

(** [_random_delay] draws once; unless the length drawn is negative, the
    delay shows in the trace. *)
Lemma random_delay_frame (s : Session) :
  let delay := random_uniform (fst (delay_range s)) (snd (delay_range s))
                              (randbits w (draws s)) in
  writes (snd (_random_delay w s)) = writes s /\
  ((fst (_random_delay w s) = Raise OtherException /\ (delay < 0)%Q /\
    frame [] s (snd (_random_delay w s)))
   \/ ((fst (_random_delay w s) = Normal tt \/
        fst (_random_delay w s) = Raise KeyboardInterrupt) /\
       frame [Delay delay] s (snd (_random_delay w s)))).
Proof.
  unfold _random_delay, time_sleep. session_fields.
  destruct (Qlt_le_dec _ 0) as [Hneg|Hpos]; cbn [fst snd].
  - split; [reflexivity|]. left. repeat split; try assumption; try reflexivity; try lia.
    exists []. rewrite app_nil_r. repeat split; constructor.
  - split; [destruct (sigint w (sleeps s)); reflexivity|]. right.
    destruct (sigint w (sleeps s)); cbn [fst snd]; (split; [auto|]);
      (constructor; session_fields; try reflexivity; try lia;
       eexists; split; [reflexivity|]; repeat split; constructor).
Qed.

Lemma scrape_page_frame (page_num : Z) (s : Session) :
  (frame [] s (snd (scrape_page w page_num s)) /\
   (writes (snd (scrape_page w page_num s)) = writes s \/
    is_Normal (fst (scrape_page w page_num s)) = false))
  \/ (frame [Page (dump_name page_num)] s (snd (scrape_page w page_num s)) /\
      writes (snd (scrape_page w page_num s)) = S (writes s) /\
      is_Normal (fst (scrape_page w page_num s)) = true).
Proof.
  unfold scrape_page, bind.
  destruct (fetch_page_frame (page_url page_num) s) as [Hfr Hwr].
  destruct (fetch_page w (page_url page_num) s) as [[[html|]|e] s1]; cbn [snd] in *.
  - destruct (nonempty html); cbn [negb].
    + unfold write_file.
      assert (Hdump : frame [Page (dump_name page_num)] s1
                        (log (Dump (dump_name page_num) html) (tick_writes s1))).
      { constructor; session_fields; try reflexivity; try lia.
        eexists. split; [reflexivity|]. repeat split; constructor. }
      destruct (disk w (writes s1)) as [e|]; cbn [fst snd].
      * left. split; [|right; reflexivity].
        apply (frame_step _ _ _ _ Hfr).
        constructor; session_fields; try reflexivity; try lia.
        exists []. rewrite app_nil_r. repeat split; constructor.
      * right. unfold ret. cbn [fst snd]. session_fields.
        split; [|split; [|reflexivity]].
        -- apply (frame_step _ _ _ _ Hfr Hdump).
        -- rewrite Hwr. reflexivity.
    + left. unfold ret. cbn [fst snd]. auto.
  - left. unfold ret. cbn [fst snd]. auto.
  - left. cbn [fst snd]. auto.
Qed.

Lemma pages_turn_acc (end_page page_num : Z) (acc : list dict) (s : Session) :
  pages_turn w end_page page_num acc s =
    let '(f, compounds, s') := pages_turn w end_page page_num [] s in
    (f, (acc ++ compounds)%list, s').
Proof.
  unfold pages_turn.
  destruct (scrape_page w page_num s) as [[compounds|e] s1].
  - cbn [app]. destruct (page_num <? end_page); [|reflexivity].
    destruct (_random_delay w s1) as [[[]|e] s2]; reflexivity.
  - rewrite app_nil_r. reflexivity.
Qed.

Lemma pages_loop_records (end_page : Z) (pages : list Z) :
  forall acc s,
    snd (fst (pages_loop w end_page pages acc s)) =
      (acc ++ List.concat (pages_records w end_page pages s))%list.
Proof.
  induction pages as [|page_num rest IH]; intros acc s.
  - simpl. rewrite app_nil_r. reflexivity.
  - cbn [pages_loop pages_records]. rewrite pages_turn_acc.
    destruct (pages_turn w end_page page_num [] s) as [[[] compounds] s1].
    + rewrite IH. simpl. rewrite app_assoc. reflexivity.
    + simpl. rewrite app_nil_r. reflexivity.
Qed.

Lemma pages_turn_frame (end_page page_num : Z) (acc : list dict) (s : Session) :
  exists marks, frame marks s (snd (pages_turn w end_page page_num acc s)).
Proof.
  unfold pages_turn.
  assert (Hpage : exists marks, frame marks s (snd (scrape_page w page_num s))).
  { destruct (scrape_page_frame page_num s) as [[Hfr _]|[Hfr _]]; eauto. }
  destruct Hpage as [marks Hfr].
  destruct (scrape_page w page_num s) as [[compounds|e] s1]; cbn [snd] in *;
    [|eauto].
  destruct (page_num <? end_page); [|eauto].
  destruct (random_delay_frame s1) as [_ [(_ & _ & Hd)|[_ Hd]]];
    destruct (_random_delay w s1) as [[[]|e] s2]; cbn [snd] in *;
    eexists; apply (frame_trans _ _ _ _ _ Hfr Hd).
Qed.

Lemma pages_loop_frame (end_page : Z) (pages : list Z) :
  forall acc s, exists marks, frame marks s (snd (pages_loop w end_page pages acc s)).
Proof.
  induction pages as [|page_num rest IH]; intros acc s.
  - exists []. apply frame_refl.
  - cbn [pages_loop].
    destruct (pages_turn_frame end_page page_num acc s) as [m Hfr].
    destruct (pages_turn w end_page page_num acc s) as [[[] acc1] s1]; cbn [snd] in *.
    + destruct (IH acc1 s1) as [m' Hfr'].
      eexists. apply (frame_trans _ _ _ _ _ Hfr Hfr').
    + eauto.
Qed.


Lemma pages_loop_app (end_page : Z) (pre rest : list Z) :
  forall acc s,
    pages_loop w end_page (pre ++ rest) acc s =
      match pages_loop w end_page pre acc s with
      | (Break, acc', s') => (Break, acc', s')
      | (Next, acc', s') => pages_loop w end_page rest acc' s'
      end.
Proof.
  induction pre as [|page_num pre IH]; intros acc s; [reflexivity|].
  cbn [app pages_loop].
  destruct (pages_turn w end_page page_num acc s) as [[[] acc1] s1];
    [apply IH|reflexivity].
Qed.

Lemma range2_split (a p b : Z) :
  a <= p <= b ->
  range2 a (b + 1) = (range2 a p ++ p :: range2 (p + 1) (b + 1))%list.
Proof.
  intros Hp. unfold range2.
  replace (Z.to_nat (b + 1 - a))
    with (Z.to_nat (p - a) + S (Z.to_nat (b + 1 - (p + 1))))%nat by lia.
  rewrite count_from_app. cbn [count_from].
  replace (a + Z.of_nat (Z.to_nat (p - a))) with p by lia. reflexivity.
Qed.

Lemma check_rate_limit_frame (s : Session) :
  frame [] s (snd (_check_rate_limit w s)).
Proof.
  destruct (check_rate_limit_any s) as (o & -> & _). cbn [snd].
  unfold after_check.
  destruct (throttled _ _); constructor; session_fields; try reflexivity; try lia.
  - exists [Sleep Throttle 2]. repeat split; repeat constructor.
  - exists []. rewrite app_nil_r. repeat split; constructor.
Qed.

Lemma rotate_user_agent_frame (s : Session) :
  frame [] s (snd (_rotate_user_agent w s)).
Proof.
  unfold _rotate_user_agent. rewrite random_choice_user_agents. cbn [snd].
  constructor; session_fields; try reflexivity; try lia.
  exists []. rewrite app_nil_r. repeat split; constructor.
Qed.

Lemma run_op_frame (o : op) (s : Session) :
  exists marks, frame marks s (run_op w o s).
Proof.
  destruct o as [url|page_num|a b| | |]; cbn [run_op].
  - exists []. apply fetch_page_frame.
  - destruct (scrape_page_frame page_num s) as [[Hfr _]|[Hfr _]]; eauto.
  - unfold scrape_multiple_pages.
    destruct (pages_loop_frame b (range2 a (b + 1)) [] s) as [m Hfr].
    destruct (pages_loop w b (range2 a (b + 1)) [] s) as [[f r] s']. eauto.
  - destruct (random_delay_frame s) as [_ [(_ & _ & Hfr)|[_ Hfr]]]; eauto.
  - exists []. apply rotate_user_agent_frame.
  - exists []. apply check_rate_limit_frame.
Qed.

Lemma run_ops_frame (ops : list op) :
  forall s, exists marks, frame marks s (run_ops w ops s).
Proof.
  induction ops as [|o ops IH]; intros s.
  - exists []. apply frame_refl.
  - cbn [run_ops fold_left].
    destruct (run_op_frame o s) as [m Hfr].
    destruct (IH (run_op w o s)) as [m' Hfr'].
    eexists. apply (frame_trans _ _ _ _ _ Hfr Hfr').
Qed.

(** *** The retry loop when no sleep is interrupted *)

Section Uninterrupted.

Hypothesis no_sigint : forall n, sigint w n = false.

Lemma sleep_backoff (k attempt : Z) (s : Session) :
  0 <= k -> 0 <= attempt ->
  time_sleep w Backoff (inject_Z (k * (attempt + 1))) s =
    (Normal tt, log (Sleep Backoff (inject_Z (k * (attempt + 1)))) (tick_sleeps s)).
Proof.
  intros Hk Ha. apply time_sleep_ok; [|apply no_sigint].
  apply inject_Z_nonneg. nia.
Qed.

Lemma fetch_attempt_spec (url : string) (attempt : Z) (s : Session) :
  0 <= attempt ->
  exists s1,
    fetch_attempt w url attempt s = (verdict (http w (gets s)), s1) /\
    attempted w url attempt s s1.
Proof.
  intros Ha.
  unfold fetch_attempt, try_except, fetch_try, bind.
  rewrite check_rate_limit_ok by apply no_sigint.
  unfold _rotate_user_agent. rewrite random_choice_user_agents.
  unfold session_get, read, modify, after_check.
  destruct (http w (gets s)) as [st text|e] eqn:Hr; cbn [verdict].
  - destruct (throttled _ _) eqn:Ht; session_fields; rewrite Hr.
    all: destruct (st =? 200) eqn:E200;
      [apply Z.eqb_eq in E200; subst st; close_attempt|];
      destruct (st =? 429) eqn:E429;
      [apply Z.eqb_eq in E429; subst st; cbv beta;
       rewrite sleep_backoff by lia; close_attempt|];
      destruct (st =? 403) eqn:E403;
      [apply Z.eqb_eq in E403; subst st; close_attempt|];
      unfold raise_for_status;
      destruct ((400 <=? st) && (st <? 600)) eqn:Eraise; [|close_attempt];
      unfold raise, fetch_except, bind, read; session_fields;
      destruct (attempt <? max_retries s - 1) eqn:Elast;
      [rewrite sleep_backoff by lia|]; close_attempt.
  - destruct (throttled _ _) eqn:Ht; session_fields; rewrite Hr.
    all: destruct e; unfold fetch_except, raise, bind, read; session_fields;
      try close_attempt;
      (destruct (attempt <? max_retries s - 1) eqn:Elast;
       [rewrite sleep_backoff by lia|]; close_attempt).
Qed.

Lemma verdict_retried (r : reply) : retried r = true -> verdict r = Normal None.
Proof.
  destruct r as [st text|[]]; simpl; try discriminate; try reflexivity.
  destruct (st =? 200); [discriminate|].
  destruct (st =? 403); [discriminate|reflexivity].
Qed.

Lemma fetch_loop_skip (url : string) (pre rest : list Z) :
  forall s,
    Forall (fun attempt => 0 <= attempt) pre ->
    (forall i, (i < List.length pre)%nat -> retried (http w (gets s + i)) = true) ->
    exists s',
      fetch_loop w url (pre ++ rest) s = fetch_loop w url rest s' /\
      retried_through w url pre s s'.
Proof.
  induction pre as [|attempt pre IH]; intros s Hpos Hall.
  - exists s. split; [reflexivity|].
    constructor; simpl; rewrite ?Nat.add_0_r, ?Z.add_0_r; try reflexivity.
    exists []. rewrite app_nil_r. repeat split; reflexivity.
  - inversion Hpos as [|? ? Ha Hpos']; subst.
    destruct (fetch_attempt_spec url attempt s Ha) as (s1 & Hrun & Hatt).
    assert (H0 : retried (http w (gets s)) = true).
    { rewrite <- (Nat.add_0_r (gets s)). apply Hall. simpl. lia. }
    rewrite (verdict_retried _ H0) in Hrun.
    destruct Hatt as [Hmr Hdr Hwr Hg Hc Hd Hcount Hua Htr].
    destruct (IH s1 Hpos') as (s' & Hloop & Hthr).
    { intros i Hi. rewrite Hg.
      replace (S (gets s) + i)%nat with (gets s + S i)%nat by lia.
      apply Hall. simpl. lia. }
    destruct Hthr as [Hmr' Hdr' Hwr' Hg' Hc' Hd' Hcount' (evs & Htr' & Hsteps & Hpace)].
    exists s'. split.
    + simpl. unfold bind at 1. rewrite Hrun. exact Hloop.
    + constructor; simpl List.length; try congruence; try lia.
      * rewrite Hcount', Hcount, Hg. simpl responses. lia.
      * eexists. split; [|split].
        -- rewrite Htr', Htr, <- !app_assoc. reflexivity.
        -- rewrite !steps_app, steps_throttle. simpl.
           rewrite Hsteps, Hmr, Hg. reflexivity.
        -- rewrite !pace_app, pace_throttle. simpl.
           rewrite pace_backoff, Hpace. reflexivity.
Qed.

(** Shifting a condition on the replies past the first request. *)
Lemma replies_tail (P : reply -> Prop) (g n : nat) :
  (forall i, (i < S n)%nat -> P (http w (g + i))) ->
  P (http w g) /\ (forall i, (i < n)%nat -> P (http w (S g + i))).
Proof.
  intros Hall. split.
  - rewrite <- (Nat.add_0_r g). apply Hall. lia.
  - intros i Hi. replace (S g + i)%nat with (g + S i)%nat by lia.
    apply Hall. lia.
Qed.

Lemma responses_all (g n : nat) :
  (forall i, (i < n)%nat -> responded (http w (g + i)) = 1) ->
  responses w g n = Z.of_nat n.
Proof.
  revert g; induction n as [|n IH]; intros g Hall; [reflexivity|].
  apply (replies_tail (fun r => responded r = 1)) in Hall as [H0 Hrest].
  cbn [responses]. rewrite H0, (IH _ Hrest). lia.
Qed.

Lemma retry_steps_429 (url : string) (mr : Z) (n : nat) :
  forall a g,
    (forall i, (i < n)%nat -> exists text, http w (g + i) = Response 429 text) ->
    retry_steps w url mr (count_from a n) g =
      flat_map (fun k => [Request url; Wait (inject_Z (60 * k))])
               (count_from (a + 1) n).
Proof.
  induction n as [|n IH]; intros a g Hall; [reflexivity|].
  apply (replies_tail (fun r => exists text, r = Response 429 text)) in Hall
    as [[text H0] Hrest].
  cbn [count_from retry_steps flat_map]. rewrite H0, (IH _ _ Hrest).
  reflexivity.
Qed.

Lemma retry_steps_quiet (url : string) (mr : Z) (n : nat) :
  forall a g,
    (forall i, (i < n)%nat -> backoff_events mr (a + Z.of_nat i) (http w (g + i)) = []) ->
    retry_steps w url mr (count_from a n) g = repeat (Request url) n.
Proof.
  induction n as [|n IH]; intros a g Hall; [reflexivity|].
  cbn [count_from retry_steps repeat].
  pose proof (Hall 0%nat ltac:(lia)) as H0.
  rewrite Z.add_0_r, Nat.add_0_r in H0. rewrite H0. cbn [steps app].
  rewrite IH; [reflexivity|].
  intros i Hi. specialize (Hall (S i) ltac:(lia)).
  replace (a + 1 + Z.of_nat i) with (a + Z.of_nat (S i)) by lia.
  replace (S g + i)%nat with (g + S i)%nat by lia. exact Hall.
Qed.

(** Every attempt is retried: the loop runs out. *)
Lemma fetch_page_exhausted (url : string) (s : Session) :
  (forall i, (i < Z.to_nat (max_retries s))%nat ->
             retried (http w (gets s + i)) = true) ->
  exists s',
    fetch_page w url s = (Normal None, s') /\
    retried_through w url (range (max_retries s)) s s'.
Proof.
  intros Hall.
  destruct (fetch_loop_skip url (range (max_retries s)) [] s) as (s' & Hrun & Hthr).
  - rewrite range_count. apply count_from_nonneg. lia.
  - rewrite range_count, count_from_length. exact Hall.
  - exists s'. split; [|exact Hthr].
    unfold fetch_page, bind, read. rewrite app_nil_r in Hrun. exact Hrun.
Qed.

(** The first [k] attempts are retried: the loop reaches attempt [k]. *)
Lemma fetch_page_reaches (url : string) (s : Session) (k : nat) :
  (k < Z.to_nat (max_retries s))%nat ->
  (forall i, (i < k)%nat -> retried (http w (gets s + i)) = true) ->
  exists s1 rest,
    fetch_page w url s = fetch_loop w url (Z.of_nat k :: rest) s1 /\
    retried_through w url (count_from 0 k) s s1.
Proof.
  intros Hk Hall.
  assert (Hsplit : range (max_retries s) =
                   (count_from 0 k ++ Z.of_nat k
                      :: count_from (Z.of_nat k + 1) (Z.to_nat (max_retries s) - S k))%list).
  { rewrite range_count.
    replace (Z.to_nat (max_retries s))
      with (k + S (Z.to_nat (max_retries s) - S k))%nat at 1 by lia.
    rewrite count_from_app. reflexivity. }
  destruct (fetch_loop_skip url (count_from 0 k)
              (Z.of_nat k :: count_from (Z.of_nat k + 1) (Z.to_nat (max_retries s) - S k)) s)
    as (s1 & Hrun & Hthr).
  - apply count_from_nonneg. lia.
  - rewrite count_from_length. exact Hall.
  - exists s1, (count_from (Z.of_nat k + 1) (Z.to_nat (max_retries s) - S k)).
    split; [|exact Hthr].
    unfold fetch_page, bind, read. rewrite Hsplit. exact Hrun.
Qed.

Lemma verdict_cases (r : reply) :
  (exists text, r = Response 200 text /\ verdict r = Normal (Some (Some text))) \/
  (exists text, r = Response 403 text /\ verdict r = Normal (Some None)) \/
  (retried r = true /\ verdict r = Normal None) \/
  (exists e, r = GetRaises e /\ retried r = false /\ verdict r = Raise e).
Proof.
  destruct r as [st text|e].
  - simpl. destruct (Z.eqb_spec st 200) as [->|N200].
    + left. exists text. split; reflexivity.
    + destruct (Z.eqb_spec st 403) as [->|N403].
      * right; left. exists text. split; reflexivity.
      * right; right; left. split; reflexivity.
  - destruct e; simpl;
      try (right; right; left; split; reflexivity);
      right; right; right; eexists; repeat split; reflexivity.
Qed.

(** The outcome of the loop, told by the first reply that is not retried. *)
Lemma fetch_loop_outcome (url : string) (attempts : list Z) :
  forall s,
    Forall (fun attempt => 0 <= attempt) attempts ->
    match fst (fetch_loop w url attempts s) with
    | Normal (Some text) =>
        exists k, (k < List.length attempts)%nat /\
                  http w (gets s + k) = Response 200 text /\
                  forall i, (i < k)%nat -> retried (http w (gets s + i)) = true
    | Normal None =>
        (exists k text, (k < List.length attempts)%nat /\
                        http w (gets s + k) = Response 403 text /\
                        forall i, (i < k)%nat -> retried (http w (gets s + i)) = true)
        \/ (forall i, (i < List.length attempts)%nat ->
                      retried (http w (gets s + i)) = true)
    | Raise e =>
        exists k, (k < List.length attempts)%nat /\
                  http w (gets s + k) = GetRaises e /\
                  retried (GetRaises e) = false /\
                  forall i, (i < k)%nat -> retried (http w (gets s + i)) = true
    end.
Proof.
  induction attempts as [|attempt rest IH]; intros s Hpos.
  - simpl. right. intros i Hi. lia.
  - inversion Hpos as [|? ? Ha Hpos']; subst.
    destruct (fetch_attempt_spec url attempt s Ha) as (s1 & Hrun & Hatt).
    cbn [fetch_loop]. unfold bind at 1. rewrite Hrun.
    destruct (verdict_cases (http w (gets s)))
      as [(text & Hr & ->)|[(text & Hr & ->)|[(Hr & ->)|(e & Hr & Hnot & ->)]]].
    + simpl. exists 0%nat. rewrite Nat.add_0_r. repeat split; [lia|exact Hr|].
      intros i Hi. lia.
    + simpl. left. exists 0%nat, text. rewrite Nat.add_0_r.
      repeat split; [lia|exact Hr|]. intros i Hi. lia.
    + specialize (IH s1 Hpos'). rewrite (att_gets _ _ _ _ _ Hatt) in IH.
      assert (Hshift : forall k, (forall i, (i < k)%nat ->
                         retried (http w (S (gets s) + i)) = true) ->
                       forall i, (i < S k)%nat -> retried (http w (gets s + i)) = true).
      { intros k Hk [|i] Hi; [rewrite Nat.add_0_r; exact Hr|].
        replace (gets s + S i)%nat with (S (gets s) + i)%nat by lia.
        apply Hk. lia. }
      destruct (fst (fetch_loop w url rest s1)) as [[text|]|e].
      * destruct IH as (k & Hk & Hrk & Hbefore).
        exists (S k). simpl List.length.
        replace (gets s + S k)%nat with (S (gets s) + k)%nat by lia.
        repeat split; [lia|exact Hrk|]. apply Hshift, Hbefore.
      * destruct IH as [(k & text & Hk & Hrk & Hbefore)|Hall].
        -- left. exists (S k), text. simpl List.length.
           replace (gets s + S k)%nat with (S (gets s) + k)%nat by lia.
           repeat split; [lia|exact Hrk|]. apply Hshift, Hbefore.
        -- right. simpl List.length. apply Hshift, Hall.
      * destruct IH as (k & Hk & Hrk & Hnot & Hbefore).
        exists (S k). simpl List.length.
        replace (gets s + S k)%nat with (S (gets s) + k)%nat by lia.
        repeat split; [lia|exact Hrk|exact Hnot|]. apply Hshift, Hbefore.
    + simpl. exists 0%nat. rewrite Nat.add_0_r. rewrite Hr in Hnot.
      repeat split; [lia|exact Hr|exact Hnot|]. intros i Hi. lia.
Qed.

End Uninterrupted.

End Facts.

(** ** Runs on the sample worlds *)

Example str_examples : (str (-12), str 0, str 305) = ("-12", "0", "305").
Proof. reflexivity. Qed.

Example range_examples :
  (range 3, range2 2 5, range (-1), range2 3 2) = ([0; 1; 2], [2; 3; 4], [], []).
Proof. reflexivity. Qed.

Example dom_text_examples :
  (Dom.strip "  a b  ", Dom.split " x  yy z ",
   Dom.text_of (Dom.Elem "p" [] [Dom.Text " a "; Dom.Elem "b" [] [Dom.Text "c "]]))
  = ("a b", ["x"; "yy"; "z"], "ac").
Proof. reflexivity. Qed.

(** Three answers with status 500: [raise_for_status] raises, the waits are
    5 and 10 seconds, none after the last attempt; the three requests are
    counted. *)
Example fetch_page_broken :
  let '(r, s) := fetch_page Samples.broken "https://example.org" Samples.scraper in
  (r, request_count s, steps (trace s))
  = (Normal None, 3,
     [ Request "https://example.org"; Wait (inject_Z 5);
       Request "https://example.org"; Wait (inject_Z 10);
       Request "https://example.org" ]).
Proof. vm_compute. reflexivity. Qed.

(** A connection error (wait 10), a 502 (wait 5 * 2), then a 403: of the
    three requests the two that were answered are counted. *)
Example fetch_page_blocked_late :
  let '(r, s) := fetch_page Samples.blocked_late "https://example.org" Samples.scraper in
  (r, request_count s, steps (trace s))
  = (Normal None, 2,
     [ Request "https://example.org"; Wait (inject_Z 10);
       Request "https://example.org"; Wait (inject_Z 10);
       Request "https://example.org" ]).
Proof. vm_compute. reflexivity. Qed.

(** No attempt is made when [max_retries] is zero or negative. *)
Example fetch_page_no_budget :
  (fetch_page Samples.healthy "https://example.org" (init (3 # 1, 6 # 1)%Q 0),
   fetch_page Samples.healthy "https://example.org" (init (3 # 1, 6 # 1)%Q (-2)))
  = ((Normal None, init (3 # 1, 6 # 1)%Q 0),
     (Normal None, init (3 # 1, 6 # 1)%Q (-2))).
Proof. vm_compute. reflexivity. Qed.

(** Three pages of the healthy server: three dumps, two delays between
    them, and two pauses of the rate check. *)
Example scrape_three_pages :
  let '(r, s) := scrape_multiple_pages Samples.healthy 1 3 Samples.scraper in
  (is_Normal r, request_count s, map (fun m => match m with Page f => f | Delay _ => "delay" end)
                                  (pace (trace s)), pauses (trace s))
  = (true, 3,
     ["page_1_raw.html"; "delay"; "page_2_raw.html"; "delay"; "page_3_raw.html"],
     [2%Q; 2%Q]).
Proof. vm_compute. reflexivity. Qed.

(** With a negative delay range every [time.sleep] of [_random_delay]
    raises [ValueError]; the page loop catches it and goes on, so the pages
    are all scraped and no delay is made. *)
Example scrape_negative_delays :
  let '(r, s) :=
    scrape_multiple_pages Samples.healthy 1 3 (init ((-3) # 1, (-1) # 1)%Q 3) in
  (match r with Normal l => len l | Raise _ => -1 end, pace (trace s))
  = (6, [Page "page_1_raw.html"; Page "page_2_raw.html"; Page "page_3_raw.html"]).
Proof. vm_compute. reflexivity. Qed.

(** An empty range of pages does nothing. *)
Example scrape_empty_range :
  scrape_multiple_pages Samples.healthy 3 1 Samples.scraper
  = (Normal [], Samples.scraper).
Proof. vm_compute. reflexivity. Qed.

(** ** The retry loop of fetch_page *)

(** C1.  When every attempt of [fetch_page] is answered with status 429,
    the loop makes exactly [max_retries] requests, waits [60 * k] seconds
    after the [k]-th of them (k = 1 .. max_retries), and then returns [None].
    Every one of the requests counts. *)
Theorem fetch_page_all_429 {tag : Type} (w : World tag) (url : string) (s : Session) :
  (forall n, sigint w n = false) ->
  (forall i, (i < Z.to_nat (max_retries s))%nat ->
             exists text, http w (gets s + i) = Response 429 text) ->
  exists s',
    fetch_page w url s = (Normal None, s') /\
    gets s' = (gets s + Z.to_nat (max_retries s))%nat /\
    request_count s' = request_count s + Z.max 0 (max_retries s) /\
    exists evs,
      trace s' = (trace s ++ evs)%list /\
      steps evs =
        flat_map (fun k => [Request url; Wait (inject_Z (60 * k))])
                 (range2 1 (max_retries s + 1)).
Proof.
  intros Hsig Hall.
  destruct (fetch_page_exhausted w Hsig url s) as (s' & Hrun & Hthr).
  { intros i Hi. destruct (Hall i Hi) as [text ->]. reflexivity. }
  destruct Hthr as [_ _ _ Hg _ _ Hcount (evs & Htr & Hsteps & _)].
  rewrite range_count, count_from_length in *.
  exists s'. repeat split; [exact Hrun|exact Hg| |].
  - rewrite Hcount, responses_all; [lia|].
    intros i Hi. destruct (Hall i Hi) as [text ->]. reflexivity.
  - exists evs. split; [exact Htr|].
    rewrite Hsteps. unfold range2.
    replace (max_retries s + 1 - 1) with (max_retries s) by lia.
    apply retry_steps_429. exact Hall.
Qed.

Lemma fetch_page_all_429_witness :
  exists s',
    fetch_page Samples.busy "https://example.org" Samples.scraper = (Normal None, s') /\
    gets s' = 3%nat /\
    request_count s' = 3 /\
    exists evs,
      trace s' = evs /\
      steps evs =
        [ Request "https://example.org"; Wait (inject_Z 60);
          Request "https://example.org"; Wait (inject_Z 120);
          Request "https://example.org"; Wait (inject_Z 180) ].
Proof.
  apply (fetch_page_all_429 Samples.busy "https://example.org" Samples.scraper).
  - intros n. reflexivity.
  - intros i _. eexists. reflexivity.
Defined.

(** C10.  A response with a 2xx status other than 200 is neither a success
    nor an error: [raise_for_status] lets it pass, no sleep of [fetch_page]
    follows it, and the loop goes straight on to the next attempt.  After
    [max_retries] such responses [fetch_page] returns [None].  (The only
    sleeps of such a run are the pauses of the rate check that opens an
    attempt: [steps] shows the waits of [fetch_page], [pace] the delays
    of [_random_delay].) *)
Theorem fetch_page_2xx_not_200 {tag : Type} (w : World tag) (url : string) (s : Session) :
  (forall n, sigint w n = false) ->
  (forall i, (i < Z.to_nat (max_retries s))%nat ->
             exists status_code text,
               http w (gets s + i) = Response status_code text /\
               200 <= status_code < 300 /\ status_code <> 200) ->
  exists s',
    fetch_page w url s = (Normal None, s') /\
    gets s' = (gets s + Z.to_nat (max_retries s))%nat /\
    request_count s' = request_count s + Z.max 0 (max_retries s) /\
    exists evs,
      trace s' = (trace s ++ evs)%list /\
      steps evs = repeat (Request url) (Z.to_nat (max_retries s)) /\
      pace evs = [].
Proof.
  intros Hsig Hall.
  assert (Hquiet : forall i, (i < Z.to_nat (max_retries s))%nat ->
            retried (http w (gets s + i)) = true /\
            responded (http w (gets s + i)) = 1 /\
            forall mr attempt, backoff_events mr attempt (http w (gets s + i)) = []).
  { intros i Hi. destruct (Hall i Hi) as (st & text & -> & Hst & Hne).
    cbn [retried responded backoff_events].
    destruct (Z.eqb_spec st 200) as [|_]; [contradiction|].
    destruct (Z.eqb_spec st 403) as [|_]; [lia|].
    destruct (Z.eqb_spec st 429) as [|_]; [lia|].
    destruct (Z.leb_spec 400 st) as [|_]; [lia|].
    repeat split. }
  destruct (fetch_page_exhausted w Hsig url s) as (s' & Hrun & Hthr).
  { intros i Hi. apply Hquiet, Hi. }
  destruct Hthr as [_ _ _ Hg _ _ Hcount (evs & Htr & Hsteps & Hpace)].
  rewrite range_count, count_from_length in *.
  exists s'. repeat split; [exact Hrun|exact Hg| |].
  - rewrite Hcount, responses_all; [lia|]. intros i Hi. apply Hquiet, Hi.
  - exists evs. split; [exact Htr|]. split; [|exact Hpace].
    rewrite Hsteps. apply retry_steps_quiet.
    intros i Hi. apply Hquiet, Hi.
Qed.

Lemma fetch_page_2xx_not_200_witness :
  exists s',
    fetch_page Samples.empty_handed "https://example.org" Samples.scraper
      = (Normal None, s') /\
    gets s' = 3%nat /\
    request_count s' = 3 /\
    exists evs,
      trace s' = evs /\
      steps evs = repeat (Request "https://example.org") 3 /\
      pace evs = [].
Proof.
  apply (fetch_page_2xx_not_200 Samples.empty_handed "https://example.org" Samples.scraper).
  - intros n. reflexivity.
  - intros i _. exists 204, "". split; [reflexivity|]. split; [lia|discriminate].
Defined.

(** C3.  A 403 ends [fetch_page] at once, whatever the number of the
    attempt: [None] is returned, the forbidden request is the last thing the
    call does (no sleep and no request follows it), and the call has made
    one request per attempt up to that one. *)
Theorem fetch_page_403 {tag : Type} (w : World tag) (url : string) (s : Session)
    (k : nat) :
  (forall n, sigint w n = false) ->
  (k < Z.to_nat (max_retries s))%nat ->
  (forall i, (i < k)%nat -> retried (http w (gets s + i)) = true) ->
  (exists text, http w (gets s + k) = Response 403 text) ->
  exists s',
    fetch_page w url s = (Normal None, s') /\
    gets s' = (gets s + k + 1)%nat /\
    exists evs user_agent,
      trace s' = (trace s ++ evs ++ [Get url user_agent])%list /\
      requests (steps evs) = k.
Proof.
  intros Hsig Hk Hbefore [text Hr].
  destruct (fetch_page_reaches w Hsig url s k Hk Hbefore) as (s1 & rest & Hrun & Hthr).
  destruct Hthr as [Hmr _ _ Hg _ _ _ (evs & Htr & Hsteps & _)].
  rewrite count_from_length in Hg.
  destruct (fetch_attempt_spec w Hsig url (Z.of_nat k) s1 ltac:(lia)) as (s2 & Hatt & Hfacts).
  rewrite Hg, Hr in Hatt. cbn [verdict Z.eqb Pos.eqb] in Hatt.
  exists s2. split; [|split].
  - rewrite Hrun. cbn [fetch_loop]. unfold bind at 1. rewrite Hatt. reflexivity.
  - rewrite (att_gets _ _ _ _ _ Hfacts), Hg. lia.
  - exists (evs ++ throttle_events (request_count s1) (elapsed w (clock_reads s1)))%list,
           (chosen_ua (randbits w (draws s1))).
    split.
    + rewrite (att_trace _ _ _ _ _ Hfacts), Htr, Hg, Hr, <- !app_assoc. reflexivity.
    + rewrite steps_app, steps_throttle, app_nil_r, Hsteps.
      apply requests_retry_steps.
Qed.

Lemma fetch_page_403_witness :
  exists s',
    fetch_page Samples.blocked_late "https://example.org" Samples.scraper
      = (Normal None, s') /\
    gets s' = 3%nat /\
    exists evs user_agent,
      trace s' = (evs ++ [Get "https://example.org" user_agent])%list /\
      requests (steps evs) = 2%nat.
Proof.
  apply (fetch_page_403 Samples.blocked_late "https://example.org" Samples.scraper 2).
  - intros n. reflexivity.
  - simpl. lia.
  - intros [|[|i]] Hi; [reflexivity|reflexivity|lia].
  - eexists. reflexivity.
Defined.

(** C2, as the code has it.  When the [k+1]-th attempt is answered with
    status 200 and the attempts before it are retried, [fetch_page] returns
    the text of that response after [k+1] requests, and the request counter
    has grown by the number of those requests that got a response: a request
    that ends in a timeout, a connection error or another exception of
    [session.get] is not counted, because [request_count += 1] comes after
    [session.get] returns. *)
Theorem fetch_page_200 {tag : Type} (w : World tag) (url : string) (s : Session)
    (k : nat) (text : string) :
  (forall n, sigint w n = false) ->
  (k < Z.to_nat (max_retries s))%nat ->
  (forall i, (i < k)%nat -> retried (http w (gets s + i)) = true) ->
  http w (gets s + k) = Response 200 text ->
  exists s',
    fetch_page w url s = (Normal (Some text), s') /\
    gets s' = (gets s + S k)%nat /\
    request_count s' = request_count s + responses w (gets s) (S k) /\
    responses w (gets s) (S k) = responses w (gets s) k + 1.
Proof.
  intros Hsig Hk Hbefore Hr.
  destruct (fetch_page_reaches w Hsig url s k Hk Hbefore) as (s1 & rest & Hrun & Hthr).
  destruct Hthr as [_ _ _ Hg _ _ Hcount _].
  rewrite count_from_length in Hg, Hcount.
  destruct (fetch_attempt_spec w Hsig url (Z.of_nat k) s1 ltac:(lia)) as (s2 & Hatt & Hfacts).
  rewrite Hg, Hr in Hatt. cbn [verdict Z.eqb Pos.eqb] in Hatt.
  assert (Hsplit : responses w (gets s) (S k) = responses w (gets s) k + 1).
  { clear - Hr. revert Hr. generalize (gets s) as g.
    induction k as [|k IH]; intros g Hr.
    - rewrite Nat.add_0_r in Hr. simpl. rewrite Hr. reflexivity.
    - change (responses w g (S (S k)))
        with (responded (http w g) + responses w (S g) (S k)).
      rewrite IH; [simpl; lia|].
      replace (S g + k)%nat with (g + S k)%nat by lia. exact Hr. }
  exists s2. repeat split.
  - rewrite Hrun. cbn [fetch_loop]. unfold bind at 1. rewrite Hatt. reflexivity.
  - rewrite (att_gets _ _ _ _ _ Hfacts), Hg. lia.
  - rewrite (att_count _ _ _ _ _ Hfacts), Hcount, Hg, Hr, Hsplit. simpl. lia.
  - exact Hsplit.
Qed.

Lemma fetch_page_200_witness :
  exists s',
    fetch_page Samples.slow_start "https://example.org" Samples.scraper
      = (Normal (Some "<html>page</html>"), s') /\
    gets s' = 2%nat /\
    request_count s' = 1 /\
    responses Samples.slow_start 0 2 = 1.
Proof.
  apply (fetch_page_200 Samples.slow_start "https://example.org" Samples.scraper 1).
  - intros n. reflexivity.
  - simpl. lia.
  - intros [|i] Hi; [reflexivity|lia].
  - reflexivity.
Defined.

(** C2, as the spec has it, fails: after a timeout and then a 200,
    [fetch_page] has made two attempts and the counter stands at 1. *)
Lemma counts_every_attempt_fails :
  ~ counts_every_attempt Samples.slow_start "https://example.org" Samples.scraper.
Proof.
  intros Hclaim.
  destruct (Hclaim 1%nat "<html>page</html>") as (s' & Hrun & Hcount).
  - simpl. lia.
  - intros [|i] Hi; [reflexivity|lia].
  - reflexivity.
  - vm_compute in Hrun. injection Hrun as <-. vm_compute in Hcount. discriminate.
Qed.

(** ** The page loop of scrape_multiple_pages *)



(** C6.  Say the pages before [p] are done, with [acc] the records so far,
    and [scrape_page p] raises [e].  [acc] is what those pages gave, page
    after page.  If [e] is a [KeyboardInterrupt], the loop stops there and
    [scrape_multiple_pages] returns [acc]: nothing is raised.  If [e] is any
    other exception, page [p] adds no record and the loop goes on with the
    pages after [p]. *)
Theorem scrape_multiple_pages_raising_page {tag : Type} `{BeautifulSoup tag}
    (w : World tag) (a b p : Z) (s s1 s2 : Session) (acc : list dict) (e : exn) :
  a <= p <= b ->
  pages_loop w b (range2 a p) [] s = (Next, acc, s1) ->
  scrape_page w p s1 = (Raise e, s2) ->
  acc = List.concat (pages_records w b (range2 a p) s) /\
  match e with
  | KeyboardInterrupt => scrape_multiple_pages w a b s = (Normal acc, s2)
  | _ =>
      scrape_multiple_pages w a b s =
        (Normal (acc ++ List.concat (pages_records w b (range2 (p + 1) (b + 1)) s2))%list,
         snd (pages_loop w b (range2 (p + 1) (b + 1)) acc s2))
  end.
Proof.
  intros Hp Hpre Hpage. split.
  - pose proof (pages_loop_records w b (range2 a p) [] s) as Hrec.
    rewrite Hpre in Hrec. exact Hrec.
  - assert (Hturn : pages_turn w b p acc s1 = (pages_except e, acc, s2)).
    { unfold pages_turn. rewrite Hpage. reflexivity. }
    unfold scrape_multiple_pages.
    rewrite (range2_split a p b Hp), pages_loop_app, Hpre.
    cbn [pages_loop]. rewrite Hturn.
    pose proof (pages_loop_records w b (range2 (p + 1) (b + 1)) acc s2) as Hrec.
    destruct (pages_loop w b (range2 (p + 1) (b + 1)) acc s2) as [[f r] s'].
    cbn [fst snd] in *. subst r.
    destruct e; reflexivity.
Qed.

Lemma scrape_multiple_pages_raising_page_witness :
  exists first_page s2,
    List.concat (pages_records Samples.interrupted 3 (range2 1 2) Samples.scraper)
      = first_page /\
    List.length first_page = 2%nat /\
    scrape_multiple_pages Samples.interrupted 1 3 Samples.scraper
      = (Normal first_page, s2).
Proof.
  pose (run := pages_loop Samples.interrupted 3 (range2 1 2) [] Samples.scraper).
  pose (acc := snd (fst run)).
  pose (s1 := snd run).
  pose (s2 := snd (scrape_page Samples.interrupted 2 s1)).
  destruct (scrape_multiple_pages_raising_page
              Samples.interrupted 1 3 2 Samples.scraper s1 s2 acc KeyboardInterrupt)
    as [Hacc Hrun].
  - lia.
  - vm_compute. reflexivity.
  - vm_compute. reflexivity.
  - exists acc, s2. split; [symmetry; exact Hacc|]. split; [reflexivity|exact Hrun].
Defined.

(** C4, as the spec has it, fails: for a server that forbids, one that
    answers 429 to every attempt and one that answers 500 to every attempt,
    [fetch_page] returns the same [None]. *)
Lemma failure_carries_status_fails :
  fst (fetch_page Samples.blocked "https://example.org" Samples.scraper) = Normal None /\
  fst (fetch_page Samples.busy "https://example.org" Samples.scraper) = Normal None /\
  fst (fetch_page Samples.broken "https://example.org" Samples.scraper) = Normal None /\
  ~ failure_carries_status Samples.blocked Samples.busy
      "https://example.org" Samples.scraper.
Proof.
  assert (Hb : fst (fetch_page Samples.blocked "https://example.org" Samples.scraper)
               = Normal None) by (vm_compute; reflexivity).
  assert (He : fst (fetch_page Samples.busy "https://example.org" Samples.scraper)
               = Normal None) by (vm_compute; reflexivity).
  split; [exact Hb|]. split; [exact He|]. split; [vm_compute; reflexivity|].
  intros (last_status & H403 & H429).
  rewrite Hb in H403. rewrite He in H429. congruence.
Qed.

(** C4, as the code has it.  The result of [fetch_page] is the text of a
    response with status 200, or the bare [None]; [None] stands both for a
    403 and for retries that ran out, and says nothing of the status or the
    exception seen last.  An exception of [session.get] that no clause
    catches goes up to the caller. *)
Theorem fetch_page_outcome {tag : Type} (w : World tag) (url : string) (s : Session) :
  (forall n, sigint w n = false) ->
  let n := Z.to_nat (max_retries s) in
  match fst (fetch_page w url s) with
  | Normal (Some text) =>
      exists k, (k < n)%nat /\
                http w (gets s + k) = Response 200 text /\
                forall i, (i < k)%nat -> retried (http w (gets s + i)) = true
  | Normal None =>
      (exists k text, (k < n)%nat /\
                      http w (gets s + k) = Response 403 text /\
                      forall i, (i < k)%nat -> retried (http w (gets s + i)) = true)
      \/ (forall i, (i < n)%nat -> retried (http w (gets s + i)) = true)
  | Raise e =>
      exists k, (k < n)%nat /\
                http w (gets s + k) = GetRaises e /\
                retried (GetRaises e) = false /\
                forall i, (i < k)%nat -> retried (http w (gets s + i)) = true
  end.
Proof.
  intros Hsig n.
  pose proof (fetch_loop_outcome w Hsig url (range (max_retries s)) s) as Hout.
  rewrite range_count, count_from_length in Hout.
  unfold fetch_page, bind, read. rewrite range_count.
  apply Hout. apply count_from_nonneg. lia.
Qed.

Lemma fetch_page_outcome_witness :
  (exists k text, (k < 3)%nat /\
                  http Samples.blocked_late k = Response 403 text /\
                  forall i, (i < k)%nat -> retried (http Samples.blocked_late i) = true)
  \/ (forall i, (i < 3)%nat -> retried (http Samples.blocked_late i) = true).
Proof.
  apply (fetch_page_outcome Samples.blocked_late "https://example.org" Samples.scraper).
  intros n. reflexivity.
Defined.

(** Ctrl-C during the delay that follows page [p]: the records of [p] are
    already in the list, and they are returned with the earlier ones. *)
Lemma scrape_multiple_pages_interrupted_delay {tag : Type} `{BeautifulSoup tag}
    (w : World tag) (a b p : Z) (s s1 s2 s3 : Session)
    (acc compounds : list dict) :
  a <= p < b ->
  pages_loop w b (range2 a p) [] s = (Next, acc, s1) ->
  scrape_page w p s1 = (Normal compounds, s2) ->
  _random_delay w s2 = (Raise KeyboardInterrupt, s3) ->
  scrape_multiple_pages w a b s = (Normal (acc ++ compounds)%list, s3).
Proof.
  intros Hp Hpre Hpage Hdelay.
  unfold scrape_multiple_pages.
  rewrite (range2_split a p b ltac:(lia)), pages_loop_app, Hpre.
  cbn [pages_loop]. unfold pages_turn. rewrite Hpage.
  destruct (Z.ltb_spec p b) as [_|Hge]; [|lia].
  rewrite Hdelay. reflexivity.
Qed.

(** ** The session *)

(** C8.  Whatever operations run on a session, in whatever order and
    however they end, its request counter never goes down, and every
    request it sends carries a user agent of the pool.  The user agent of a
    request is the one [random.choice] picks, on a fresh draw, in the attempt
    that sends it; and each of the four user agents of the pool is picked on
    exactly one of the four residues of the draw, so that a uniform draw
    gives a uniform choice. *)
Theorem session_count_and_agents {tag : Type} `{BeautifulSoup tag} (w : World tag) :
  (forall ops s, request_count s <= request_count (run_ops w ops s)) /\
  (forall ops s, exists evs,
      trace (run_ops w ops s) = (trace s ++ evs)%list /\
      Forall (fun ua => In ua user_agents) (agents evs)) /\
  (forall url attempt s, exists tl,
      trace (snd (fetch_attempt w url attempt s)) =
        (trace s ++ throttle_events (request_count s) (elapsed w (clock_reads s))
           ++ tl)%list /\
      (agents tl = [] \/
       agents tl = [chosen_ua (randbits w (draws s))] /\
       draws (snd (fetch_attempt w url attempt s)) = S (draws s))) /\
  (forall ua, In ua user_agents ->
              exists i, 0 <= i < 4 /\ forall r, chosen_ua r = ua <-> r mod 4 = i).
Proof.
  split; [|split; [|split]].
  - intros ops s. destruct (run_ops_frame w ops s) as [m Hfr].
    apply (fr_count _ _ _ Hfr).
  - intros ops s. destruct (run_ops_frame w ops s) as [m Hfr].
    destruct (fr_trace _ _ _ Hfr) as (evs & Htr & _ & Hua & _). eauto.
  - intros url attempt s.
    destruct (af_trace _ _ _ _ (fetch_attempt_frame w url attempt s))
      as (tl & Htr & _ & _ & Hua). eauto.
  - apply chosen_ua_residue.
Qed.

(** C9.  The rate check reads the clock once, leaves the counter alone, and
    pauses exactly when the time elapsed is positive and the requests made
    so far divided by it exceed 1/2; the pause is two seconds whatever the
    rate.  Every attempt of [fetch_page] opens with one such check, before
    its request. *)
Theorem rate_check_is_a_flat_pause {tag : Type} (w : World tag) :
  (forall s,
      trace (snd (_check_rate_limit w s)) =
        (trace s ++ throttle_events (request_count s) (elapsed w (clock_reads s)))%list /\
      request_count (snd (_check_rate_limit w s)) = request_count s /\
      clock_reads (snd (_check_rate_limit w s)) = S (clock_reads s)) /\
  (forall count elapsed_time,
      (throttle_events count elapsed_time = [Sleep Throttle 2] /\
       (0 < elapsed_time /\ 1 # 2 < inject_Z count / elapsed_time)%Q)
      \/ (throttle_events count elapsed_time = [] /\
          ~ (0 < elapsed_time /\ 1 # 2 < inject_Z count / elapsed_time)%Q)) /\
  (forall url attempt s, exists tl,
      trace (snd (fetch_attempt w url attempt s)) =
        (trace s ++ throttle_events (request_count s) (elapsed w (clock_reads s))
           ++ tl)%list /\
      pauses tl = [] /\
      clock_reads (snd (fetch_attempt w url attempt s)) = S (clock_reads s)).
Proof.
  split; [|split].
  - intros s. destruct (check_rate_limit_any w s) as (o & -> & _). cbn [snd].
    unfold after_check, throttle_events.
    destruct (throttled _ _); session_fields; rewrite ?app_nil_r; auto.
  - intros count e. unfold throttle_events, throttled.
    destruct (Qlt_le_dec 0 e) as [Hpos|Hneg].
    + destruct (Qlt_le_dec (1 # 2) (inject_Z count / e)) as [Hfast|Hslow].
      * left. auto.
      * right. split; [reflexivity|]. intros [_ Hfast].
        apply (Qlt_not_le _ _ Hfast Hslow).
    + right. split; [reflexivity|]. intros [Hpos _].
      apply (Qlt_not_le _ _ Hpos Hneg).
  - intros url attempt s.
    pose proof (fetch_attempt_frame w url attempt s) as Hfr.
    destruct (af_trace _ _ _ _ Hfr) as (tl & Htr & _ & Hp & _).
    exists tl. repeat split; [exact Htr|exact Hp|apply (af_clock _ _ _ _ Hfr)].
Qed.

(** ** The records of parse_compounds *)

(** C7.  On a page with a product list, [parse_compounds] returns the
    records of the items, in the order of the page, that have more than two
    fields: a record with fewer than three fields is left out, a record
    with exactly three is kept.  (A field is populated when the record has
    its key.)  A tag that an item lacks leaves its fields out of the record;
    nothing is raised. *)
Theorem parse_compounds_validity_floor {tag : Type} `{BeautifulSoup tag}
    (w : World tag) (html : string) (items : list tag) :
  nonempty html = true ->
  product_items w html = Some items ->
  parse_compounds w html = filter (fun c => len c >? 2) (map parse_item items) /\
  (forall compound, In compound (parse_compounds w html) -> 3 <= len compound) /\
  (forall item, In item items ->
                len (parse_item item) < 3 ->
                ~ In (parse_item item) (parse_compounds w html)) /\
  (forall item, In item items ->
                len (parse_item item) = 3 ->
                In (parse_item item) (parse_compounds w html)) /\
  (forall item,
      (find item "dt" [("class", "dnr_pro_list_cat")] = None ->
       dict_get "catalog_no" (parse_item item) = None /\
       dict_get "url" (parse_item item) = None) /\
      (find item "th" [("class", "dnr_pro_list_name")] = None ->
       dict_get "name_en" (parse_item item) = None /\
       dict_get "name_cn" (parse_item item) = None) /\
      (find item "th" [("class", "dnr_pro_list_cas")] = None ->
       dict_get "cas_no" (parse_item item) = None) /\
      (find item "th" [("class", "dnr_pro_list_purity")] = None ->
       dict_get "purity" (parse_item item) = None) /\
      (find item "td" [("class", "dnr_pro_list_brief")] = None ->
       dict_get "description" (parse_item item) = None) /\
      (find item "dt" [("class", "dnr_pro_list_structure")] = None ->
       dict_get "structure_image" (parse_item item) = None)).
Proof.
  intros Hhtml Hitems.
  assert (Heq : parse_compounds w html
                = filter (fun c => len c >? 2) (map parse_item items)).
  { unfold parse_compounds. rewrite Hhtml, Hitems. cbn [negb].
    rewrite parse_items_filter. reflexivity. }
  split; [exact Heq|]. rewrite Heq.
  split; [|split; [|split]].
  - intros compound Hin. apply filter_In in Hin as [_ Hlen]. lia.
  - intros item _ Hlen Hin. apply filter_In in Hin as [_ Hlen']. lia.
  - intros item Hin Hlen. apply filter_In. split.
    + apply in_map, Hin.
    + rewrite Hlen. reflexivity.
  - apply parse_item_absent.
Qed.

Lemma parse_compounds_validity_floor_witness :
  parse_compounds Samples.healthy "<html>page</html>"
    = [ [ ("catalog_no", "HY-N0830");
          ("url", "https://www.medchemexpress.cn/HY-N0830.html");
          ("name_en", "Glucose");
          ("cas_no", "50-99-7") ];
        [ ("catalog_no", "HY-B0389");
          ("url", "https://www.medchemexpress.cn/HY-B0389.html");
          ("name_en", "") ] ] /\
  [("cas_no", "56-40-6")]
    = parse_item (Dom.Elem "li" []
                    [Dom.Elem "th" [("class", "dnr_pro_list_cas")] [Dom.Text "56-40-6"]]) /\
  ~ In [("cas_no", "56-40-6")] (parse_compounds Samples.healthy "<html>page</html>").
Proof.
  destruct (parse_compounds_validity_floor Samples.healthy "<html>page</html>"
              [ Samples.product "HY-N0830" "Glucose" "50-99-7";
                Samples.product "HY-B0389" "" "";
                Dom.Elem "li" []
                  [Dom.Elem "th" [("class", "dnr_pro_list_cas")] [Dom.Text "56-40-6"]] ])
    as (Heq & _ & Hout & _).
  - reflexivity.
  - vm_compute. reflexivity.
  - split; [rewrite Heq; vm_compute; reflexivity|].
    split; [vm_compute; reflexivity|].
    apply (Hout (Dom.Elem "li" []
                   [Dom.Elem "th" [("class", "dnr_pro_list_cas")] [Dom.Text "56-40-6"]])).
    + right. right. left. reflexivity.
    + vm_compute. reflexivity.
Defined.

(** * Further properties of the scraper *)

Lemma responses_app {tag} (w : World tag) (n m : nat) :
  forall g, responses w g (n + m) = responses w g n + responses w (g + n) m.
Proof.
  induction n as [|n IH]; intros g.
  - simpl. rewrite Nat.add_0_r. reflexivity.
  - cbn [Nat.add responses]. rewrite IH.
    replace (S g + n)%nat with (g + S n)%nat by lia. lia.
Qed.

Lemma responses_bounds {tag} (w : World tag) (n : nat) :
  forall g, 0 <= responses w g n <= Z.of_nat n.
Proof.
  induction n as [|n IH]; intros g; [simpl; lia|].
  cbn [responses]. specialize (IH (S g)).
  destruct (http w g); cbn [responded]; lia.
Qed.

Lemma count_from_between (a : Z) (n : nat) :
  Forall (fun k => a <= k < a + Z.of_nat n) (count_from a n).
Proof.
  revert a; induction n as [|n IH]; intros a; simpl; constructor; [lia|].
  eapply Forall_impl; [|apply IH]. intros k Hk. cbv beta in Hk. lia.
Qed.

Section MoreFacts.
Context {tag : Type} `{BeautifulSoup tag}.
Variable w : World tag.

Lemma counted_refl (s : Session) : counted w s s.
Proof. constructor; [lia|]. rewrite Nat.sub_diag. simpl. lia. Qed.

Lemma counted_same (s s' : Session) :
  gets s' = gets s -> request_count s' = request_count s -> counted w s s'.
Proof.
  intros Hg Hc. constructor; [lia|]. rewrite Hg, Hc, Nat.sub_diag. simpl. lia.
Qed.

Lemma counted_trans (s s' s'' : Session) :
  counted w s s' -> counted w s' s'' -> counted w s s''.
Proof.
  intros [Hg Hc] [Hg' Hc']. constructor; [lia|].
  replace (gets s'' - gets s)%nat
    with ((gets s' - gets s) + (gets s'' - gets s'))%nat by lia.
  rewrite responses_app, Hc', Hc.
  replace (gets s + (gets s' - gets s))%nat with (gets s') by lia. lia.
Qed.

Local Ltac cut_sleep :=
  unfold time_sleep;
  match goal with
  | |- context [Qlt_le_dec ?a ?b] => destruct (Qlt_le_dec a b)
  end;
  [|match goal with
    | |- context [sigint w ?n] => destruct (sigint w n)
    end].

Local Ltac close_tally :=
  unfold ret, raise; cbv beta iota; cbn [snd]; constructor;
  try match goal with Hr : http _ _ = _ |- _ => rewrite !Hr end;
  session_fields; cbn [responded];
  eexists; split;
  [ rewrite <- ?app_assoc; cbn [app]; first [reflexivity | symmetry; apply app_nil_r]
  | cbn [steps app]; session_fields;
    first [ left; repeat split; first [reflexivity | lia]
          | right; split; [reflexivity|]; split; [first [reflexivity | lia]|];
            first [ left; reflexivity
                  | right; exists 5; split; [auto|reflexivity]
                  | right; exists 10; split; [auto|reflexivity]
                  | right; exists 60; split; [auto|reflexivity] ] ] ].

Lemma fetch_attempt_tally (url : string) (attempt : Z) (s : Session) :
  attempt_tally w url attempt s (snd (fetch_attempt w url attempt s)).
Proof.
  unfold fetch_attempt, try_except, fetch_try, bind.
  destruct (check_rate_limit_any w s) as (o & -> & [->|[-> Ht]]).
  2:{ unfold after_check. rewrite Ht. cbn [fetch_except]. unfold raise.
      close_tally. }
  unfold _rotate_user_agent. rewrite random_choice_user_agents.
  unfold session_get, read, modify, after_check.
  destruct (throttled _ _) eqn:Ht; session_fields;
    (destruct (http w (gets s)) as [st text|e] eqn:Hr; session_fields; rewrite ?Hr;
     [ destruct (st =? 200); [close_tally|];
       destruct (st =? 429);
       [cbv beta; cut_sleep; cbn [fetch_except]; unfold raise; close_tally|];
       destruct (st =? 403); [close_tally|];
       unfold raise_for_status;
       destruct ((400 <=? st) && (st <? 600)); [|close_tally];
       unfold raise, fetch_except, bind, read; session_fields;
       destruct (attempt <? max_retries s - 1); [cut_sleep|]; close_tally
     | destruct e; unfold fetch_except, raise, bind, read; session_fields;
       try close_tally;
       (destruct (attempt <? max_retries s - 1); [cut_sleep|]; close_tally) ]).
Qed.

(** The exceptions of [requests] never leave an attempt. *)
Lemma fetch_attempt_raises (url : string) (attempt : Z) (s : Session) (e : exn) :
  fst (fetch_attempt w url attempt s) = Raise e ->
  e = KeyboardInterrupt \/ e = OtherException.
Proof.
  unfold fetch_attempt, try_except, fetch_try, bind.
  destruct (check_rate_limit_any w s) as (o & -> & [->|[-> Ht]]).
  2:{ cbn. intros [= <-]. auto. }
  unfold _rotate_user_agent. rewrite random_choice_user_agents.
  unfold session_get, read, modify, ret, raise.
  destruct (http w _) as [st text|e0]; cbv beta iota.
  - destruct (st =? 200); [discriminate|].
    destruct (st =? 429).
    { cut_sleep; cbn; try discriminate; intros [= <-]; auto. }
    destruct (st =? 403); [discriminate|].
    unfold raise_for_status, raise, ret.
    destruct ((400 <=? st) && (st <? 600)); [|discriminate].
    cbn [fetch_except]. unfold bind, read, ret.
    destruct (attempt <? _); [cut_sleep|]; cbn; try discriminate;
      intros [= <-]; auto.
  - destruct e0; cbn [fetch_except]; unfold bind, read, ret, raise;
      try (cbn; intros [= <-]; auto; fail);
      (destruct (attempt <? _); [cut_sleep|]; cbn; try discriminate;
       intros [= <-]; auto).
Qed.

Lemma wait_within (c attempt bound : Z) :
  (c = 5 \/ c = 10 \/ c = 60) -> 0 <= attempt < bound ->
  (0 < inject_Z (c * (attempt + 1)) /\
   inject_Z (c * (attempt + 1)) <= inject_Z (60 * bound))%Q.
Proof.
  intros Hc Ha. unfold Qlt, Qle. cbn [Qnum Qden inject_Z]. nia.
Qed.

Lemma fetch_loop_tally (url : string) (bound : Z) (attempts : list Z) :
  forall s,
    Forall (fun attempt => 0 <= attempt < bound) attempts ->
    loop_tally w url bound (List.length attempts) s
               (snd (fetch_loop w url attempts s)).
Proof.
  induction attempts as [|attempt rest IH]; intros s Hb.
  - cbn. constructor; [apply counted_refl|lia|].
    exists []. rewrite app_nil_r, Nat.sub_diag. repeat split. constructor.
  - inversion Hb as [|? ? Ha Hb']; subst.
    cbn [fetch_loop]. unfold bind.
    pose proof (fetch_attempt_tally url attempt s) as [(evs & Htr & Hcase)].
    assert (Hone : loop_tally w url bound 1 s (snd (fetch_attempt w url attempt s))).
    { destruct Hcase as [(Hg & Hc & Hs)|(Hg & Hc & Hs)].
      - constructor; [apply counted_same; assumption|lia|].
        exists evs. rewrite Hs, Hg, Nat.sub_diag. repeat split; [exact Htr|constructor].
      - constructor.
        + constructor; [lia|]. rewrite Hg, Hc.
          replace (S (gets s) - gets s)%nat with 1%nat by lia. simpl. lia.
        + lia.
        + exists evs. split; [exact Htr|]. rewrite Hg.
          replace (S (gets s) - gets s)%nat with 1%nat by lia.
          destruct Hs as [->|(c & Hc' & ->)]; (split; [|reflexivity]).
          * repeat constructor.
          * constructor; [reflexivity|]. constructor; [|constructor].
            apply wait_within; assumption. }
    destruct (fetch_attempt w url attempt s) as [[[v|]|e] s1]; cbn [snd] in *.
    + unfold ret. cbn [snd].
      destruct Hone as [Hcnt Hg Htr1]. constructor; [exact Hcnt|simpl; lia|exact Htr1].
    + specialize (IH s1 Hb').
      destruct Hone as [Hcnt Hg (evs1 & Htr1 & Hf1 & Hr1)].
      destruct IH as [Hcnt' Hg' (evs2 & Htr2 & Hf2 & Hr2)].
      pose proof (cnt_gets _ _ _ Hcnt). pose proof (cnt_gets _ _ _ Hcnt').
      constructor; [apply (counted_trans _ _ _ Hcnt Hcnt')|simpl; lia|].
      exists (evs1 ++ evs2)%list. repeat split.
      * rewrite Htr2, Htr1, app_assoc. reflexivity.
      * rewrite steps_app. apply Forall_app. split; assumption.
      * rewrite steps_app, requests_app, Hr1, Hr2. lia.
    + destruct Hone as [Hcnt Hg Htr1]. constructor; [exact Hcnt|simpl; lia|exact Htr1].
Qed.

Lemma fetch_page_tally (url : string) (s : Session) :
  loop_tally w url (max_retries s) (Z.to_nat (max_retries s)) s
             (snd (fetch_page w url s)).
Proof.
  unfold fetch_page, bind, read.
  pose proof (fetch_loop_tally url (max_retries s) (range (max_retries s)) s) as Ht.
  rewrite range_count, count_from_length in Ht. rewrite range_count.
  apply Ht. eapply Forall_impl; [|apply count_from_between].
  intros k Hk. cbv beta in Hk. lia.
Qed.

Lemma fetch_loop_raises (url : string) (attempts : list Z) (e : exn) :
  forall s,
    fst (fetch_loop w url attempts s) = Raise e ->
    e = KeyboardInterrupt \/ e = OtherException.
Proof.
  induction attempts as [|attempt rest IH]; intros s; [discriminate|].
  cbn [fetch_loop]. unfold bind.
  pose proof (fetch_attempt_raises url attempt s) as Hr.
  destruct (fetch_attempt w url attempt s) as [[[v|]|e0] s1]; cbn [fst] in *.
  - discriminate.
  - apply IH.
  - intros [= <-]. apply Hr. reflexivity.
Qed.


(** *** The retry loop when no sleep is interrupted, reply by reply *)

Section MoreUninterrupted.

Hypothesis no_sigint : forall n, sigint w n = false.

Lemma retry_steps_backs_off (c : Z) (url : string) (mr : Z) (n : nat) :
  forall a g,
    a + Z.of_nat (S n) = mr ->
    (forall i, (i < S n)%nat -> backs_off c (http w (g + i))) ->
    retry_steps w url mr (count_from a (S n)) g =
      (flat_map (fun k => [Request url; Wait (inject_Z (c * k))])
                (count_from (a + 1) n) ++ [Request url])%list.
Proof.
  induction n as [|n IH]; intros a g Ha Hall;
    apply (replies_tail w (backs_off c)) in Hall as [H0 Hrest].
  - cbn [count_from retry_steps flat_map app]. rewrite H0.
    destruct (Z.ltb_spec a (mr - 1)); [lia|]. reflexivity.
  - change (count_from a (S (S n))) with (a :: count_from (a + 1) (S n)).
    cbn [retry_steps]. rewrite H0, (IH (a + 1) (S g) ltac:(lia) Hrest).
    destruct (Z.ltb_spec a (mr - 1)); [|lia]. reflexivity.
Qed.

(** Every attempt is answered alike, with a reply that is retried and
    backs off by [c]: the requests and waits of the whole call. *)
Lemma fetch_page_backs_off (c : Z) (url : string) (s : Session) :
  0 < max_retries s ->
  (forall i, (i < Z.to_nat (max_retries s))%nat ->
             retried (http w (gets s + i)) = true /\
             backs_off c (http w (gets s + i))) ->
  exists s',
    fetch_page w url s = (Normal None, s') /\
    gets s' = (gets s + Z.to_nat (max_retries s))%nat /\
    request_count s' =
      request_count s + responses w (gets s) (Z.to_nat (max_retries s)) /\
    exists evs,
      trace s' = (trace s ++ evs)%list /\
      steps evs =
        (flat_map (fun k => [Request url; Wait (inject_Z (c * k))])
                  (range2 1 (max_retries s)) ++ [Request url])%list.
Proof.
  intros Hpos Hall.
  destruct (fetch_page_exhausted w no_sigint url s) as (s' & Hrun & Hthr).
  { intros i Hi. apply Hall, Hi. }
  destruct Hthr as [_ _ _ Hg _ _ Hcount (evs & Htr & Hsteps & _)].
  rewrite range_count, count_from_length in *.
  exists s'. split; [exact Hrun|]. split; [exact Hg|]. split; [exact Hcount|].
  exists evs. split; [exact Htr|]. rewrite Hsteps. unfold range2.
  replace (Z.to_nat (max_retries s)) with (S (Z.to_nat (max_retries s - 1))) in * by lia.
  apply retry_steps_backs_off; [lia|]. intros i Hi. apply Hall, Hi.
Qed.

Lemma responses_none (g n : nat) :
  (forall i, (i < n)%nat -> responded (http w (g + i)) = 0) ->
  responses w g n = 0.
Proof.
  revert g; induction n as [|n IH]; intros g Hall; [reflexivity|].
  apply (replies_tail w (fun r => responded r = 0)) in Hall as [H0 Hrest].
  cbn [responses]. rewrite H0, (IH _ Hrest). reflexivity.
Qed.

(** The [k+1]-th attempt is the first that is not retried. *)
Lemma fetch_page_lands (url : string) (s : Session) (k : nat) :
  (k < Z.to_nat (max_retries s))%nat ->
  (forall i, (i < k)%nat -> retried (http w (gets s + i)) = true) ->
  retried (http w (gets s + k)) = false ->
  exists s',
    fetch_page w url s =
      (match verdict (http w (gets s + k)) with
       | Normal (Some v) => Normal v
       | Normal None => Normal None
       | Raise e => Raise e
       end, s') /\
    gets s' = (gets s + S k)%nat /\
    request_count s' = request_count s + responses w (gets s) (S k) /\
    exists evs user_agent,
      trace s' = (trace s ++ evs ++ [Get url user_agent])%list /\
      requests (steps evs) = k.
Proof.
  intros Hk Hbefore Hlast.
  destruct (fetch_page_reaches w no_sigint url s k Hk Hbefore)
    as (s1 & rest & Hrun & Hthr).
  destruct Hthr as [Hmr _ _ Hg _ _ Hcount (evs & Htr & Hsteps & _)].
  rewrite count_from_length in Hg, Hcount.
  destruct (fetch_attempt_spec w no_sigint url (Z.of_nat k) s1 ltac:(lia))
    as (s2 & Hatt & Hfacts).
  rewrite Hg in Hatt.
  assert (Hquiet : backoff_events (max_retries s1) (Z.of_nat k) (http w (gets s + k)) = []).
  { destruct (http w (gets s + k)) as [st text|[]]; cbn in Hlast |- *;
      try discriminate; try reflexivity.
    destruct (Z.eqb_spec st 200) as [->|_]; [reflexivity|].
    destruct (Z.eqb_spec st 403) as [->|_]; [reflexivity|discriminate]. }
  exists s2. split; [|split; [|split]].
  - rewrite Hrun. cbn [fetch_loop]. unfold bind at 1. rewrite Hatt.
    destruct (verdict_cases (http w (gets s + k)))
      as [(text & _ & ->)|[(text & _ & ->)|[(Hr & _)|(e & _ & _ & ->)]]];
      try reflexivity. congruence.
  - rewrite (att_gets _ _ _ _ _ Hfacts), Hg. lia.
  - rewrite (att_count _ _ _ _ _ Hfacts), Hcount, Hg.
    replace (S k) with (k + 1)%nat by lia. rewrite responses_app. simpl. lia.
  - exists (evs ++ throttle_events (request_count s1) (elapsed w (clock_reads s1)))%list,
           (chosen_ua (randbits w (draws s1))).
    split.
    + rewrite (att_trace _ _ _ _ _ Hfacts), Htr, Hg, Hquiet, <- !app_assoc. reflexivity.
    + rewrite steps_app, steps_throttle, app_nil_r, Hsteps.
      apply requests_retry_steps.
Qed.

End MoreUninterrupted.

End MoreFacts.



(** ** More on the retry loop *)

(** X1.  When every attempt ends in a timeout (or in an exception of
    [requests] that is neither a timeout nor a connection error),
    [fetch_page] makes [max_retries] requests, waits [5 * k] seconds after
    the [k]-th but not after the last, returns [None], and leaves the
    request counter as it was. *)
Theorem fetch_page_all_timeouts {tag : Type} (w : World tag) (url : string)
    (s : Session) :
  (forall n, sigint w n = false) ->
  0 < max_retries s ->
  (forall i, (i < Z.to_nat (max_retries s))%nat ->
             http w (gets s + i) = GetRaises Timeout \/
             http w (gets s + i) = GetRaises RequestException) ->
  exists s',
    fetch_page w url s = (Normal None, s') /\
    gets s' = (gets s + Z.to_nat (max_retries s))%nat /\
    request_count s' = request_count s /\
    exists evs,
      trace s' = (trace s ++ evs)%list /\
      steps evs =
        (flat_map (fun k => [Request url; Wait (inject_Z (5 * k))])
                  (range2 1 (max_retries s)) ++ [Request url])%list.
Proof.
  intros Hsig Hpos Hall.
  destruct (fetch_page_backs_off w Hsig 5 url s Hpos)
    as (s' & Hrun & Hg & Hcount & Htr).
  { intros i Hi. destruct (Hall i Hi) as [-> | ->]; split; try reflexivity;
      intros mr attempt; reflexivity. }
  exists s'. split; [exact Hrun|]. split; [exact Hg|]. split; [|exact Htr].
  rewrite Hcount, responses_none; [lia|].
  intros i Hi. destruct (Hall i Hi) as [-> | ->]; reflexivity.
Qed.

Lemma fetch_page_all_timeouts_witness :
  exists s',
    fetch_page MoreSamples.silent "https://example.org" Samples.scraper
      = (Normal None, s') /\
    gets s' = 3%nat /\
    request_count s' = 0 /\
    exists evs,
      trace s' = evs /\
      steps evs =
        [ Request "https://example.org"; Wait (inject_Z 5);
          Request "https://example.org"; Wait (inject_Z 10);
          Request "https://example.org" ].
Proof.
  apply (fetch_page_all_timeouts MoreSamples.silent "https://example.org" Samples.scraper).
  - intros n. reflexivity.
  - reflexivity.
  - intros i _. left. reflexivity.
Defined.

(** X2.  When every attempt ends in a connection error, [fetch_page] makes
    [max_retries] requests, waits [10 * k] seconds after the [k]-th but not
    after the last, returns [None], and leaves the request counter as it
    was. *)
Theorem fetch_page_all_connection_errors {tag : Type} (w : World tag)
    (url : string) (s : Session) :
  (forall n, sigint w n = false) ->
  0 < max_retries s ->
  (forall i, (i < Z.to_nat (max_retries s))%nat ->
             http w (gets s + i) = GetRaises ConnectionError) ->
  exists s',
    fetch_page w url s = (Normal None, s') /\
    gets s' = (gets s + Z.to_nat (max_retries s))%nat /\
    request_count s' = request_count s /\
    exists evs,
      trace s' = (trace s ++ evs)%list /\
      steps evs =
        (flat_map (fun k => [Request url; Wait (inject_Z (10 * k))])
                  (range2 1 (max_retries s)) ++ [Request url])%list.
Proof.
  intros Hsig Hpos Hall.
  destruct (fetch_page_backs_off w Hsig 10 url s Hpos)
    as (s' & Hrun & Hg & Hcount & Htr).
  { intros i Hi. rewrite (Hall i Hi). split; [reflexivity|].
    intros mr attempt. reflexivity. }
  exists s'. split; [exact Hrun|]. split; [exact Hg|]. split; [|exact Htr].
  rewrite Hcount, responses_none; [lia|].
  intros i Hi. rewrite (Hall i Hi). reflexivity.
Qed.

Lemma fetch_page_all_connection_errors_witness :
  exists s',
    fetch_page MoreSamples.unreachable "https://example.org" Samples.scraper
      = (Normal None, s') /\
    gets s' = 3%nat /\
    request_count s' = 0 /\
    exists evs,
      trace s' = evs /\
      steps evs =
        [ Request "https://example.org"; Wait (inject_Z 10);
          Request "https://example.org"; Wait (inject_Z 20);
          Request "https://example.org" ].
Proof.
  apply (fetch_page_all_connection_errors
           MoreSamples.unreachable "https://example.org" Samples.scraper).
  - intros n. reflexivity.
  - reflexivity.
  - intros i _. reflexivity.
Defined.

(** X3.  When every attempt is answered with an error status (4xx or 5xx)
    other than 403 and 429, [raise_for_status] raises and the generic clause
    retries: [max_retries] requests, a wait of [5 * k] seconds after the
    [k]-th but not after the last, [None] in the end; every one of these
    requests is counted. *)
Theorem fetch_page_all_http_errors {tag : Type} (w : World tag) (url : string)
    (s : Session) :
  (forall n, sigint w n = false) ->
  0 < max_retries s ->
  (forall i, (i < Z.to_nat (max_retries s))%nat ->
             exists status_code text,
               http w (gets s + i) = Response status_code text /\
               400 <= status_code < 600 /\
               status_code <> 403 /\ status_code <> 429) ->
  exists s',
    fetch_page w url s = (Normal None, s') /\
    gets s' = (gets s + Z.to_nat (max_retries s))%nat /\
    request_count s' = request_count s + max_retries s /\
    exists evs,
      trace s' = (trace s ++ evs)%list /\
      steps evs =
        (flat_map (fun k => [Request url; Wait (inject_Z (5 * k))])
                  (range2 1 (max_retries s)) ++ [Request url])%list.
Proof.
  intros Hsig Hpos Hall.
  assert (Hkind : forall i, (i < Z.to_nat (max_retries s))%nat ->
            retried (http w (gets s + i)) = true /\
            backs_off 5 (http w (gets s + i)) /\
            responded (http w (gets s + i)) = 1).
  { intros i Hi. destruct (Hall i Hi) as (st & text & -> & Hst & H403 & H429).
    unfold backs_off. cbn [retried backoff_events responded].
    destruct (Z.eqb_spec st 200) as [|_]; [lia|].
    destruct (Z.eqb_spec st 403) as [|_]; [contradiction|].
    destruct (Z.eqb_spec st 429) as [|_]; [contradiction|].
    destruct (Z.leb_spec 400 st) as [_|]; [|lia].
    destruct (Z.ltb_spec st 600) as [_|]; [|lia].
    repeat split. }
  destruct (fetch_page_backs_off w Hsig 5 url s Hpos)
    as (s' & Hrun & Hg & Hcount & Htr).
  { intros i Hi. destruct (Hkind i Hi) as (? & ? & _). split; assumption. }
  exists s'. split; [exact Hrun|]. split; [exact Hg|]. split; [|exact Htr].
  rewrite Hcount, responses_all; [lia|].
  intros i Hi. apply Hkind, Hi.
Qed.

Lemma fetch_page_all_http_errors_witness :
  exists s',
    fetch_page Samples.broken "https://example.org" Samples.scraper
      = (Normal None, s') /\
    gets s' = 3%nat /\
    request_count s' = 3 /\
    exists evs,
      trace s' = evs /\
      steps evs =
        [ Request "https://example.org"; Wait (inject_Z 5);
          Request "https://example.org"; Wait (inject_Z 10);
          Request "https://example.org" ].
Proof.
  apply (fetch_page_all_http_errors Samples.broken "https://example.org" Samples.scraper).
  - intros n. reflexivity.
  - reflexivity.
  - intros i _. exists 500, "Internal Server Error".
    split; [reflexivity|]. split; [lia|]. split; discriminate.
Defined.

(** X4.  An exception of [session.get] that is no exception of [requests]
    (a [KeyboardInterrupt] among them) is caught by no clause: it leaves
    [fetch_page] at the attempt it hits, with no wait and no further
    request after it, whatever is left of the retry budget. *)
Theorem fetch_page_uncaught {tag : Type} (w : World tag) (url : string)
    (s : Session) (k : nat) (e : exn) :
  (forall n, sigint w n = false) ->
  (k < Z.to_nat (max_retries s))%nat ->
  (forall i, (i < k)%nat -> retried (http w (gets s + i)) = true) ->
  http w (gets s + k) = GetRaises e ->
  e = KeyboardInterrupt \/ e = OtherException ->
  exists s',
    fetch_page w url s = (Raise e, s') /\
    gets s' = (gets s + S k)%nat /\
    request_count s' = request_count s + responses w (gets s) k /\
    exists evs user_agent,
      trace s' = (trace s ++ evs ++ [Get url user_agent])%list /\
      requests (steps evs) = k.
Proof.
  intros Hsig Hk Hbefore Hr He.
  destruct (fetch_page_lands w Hsig url s k Hk Hbefore)
    as (s' & Hrun & Hg & Hcount & Htr).
  { rewrite Hr. destruct He as [-> | ->]; reflexivity. }
  exists s'. split; [|split; [exact Hg|split; [|exact Htr]]].
  - rewrite Hrun, Hr. destruct He as [-> | ->]; reflexivity.
  - rewrite Hcount. replace (S k) with (k + 1)%nat by lia.
    rewrite responses_app. cbn [responses]. rewrite Hr. simpl. lia.
Qed.

Lemma fetch_page_uncaught_witness :
  exists s',
    fetch_page MoreSamples.crashing "https://example.org" Samples.scraper
      = (Raise OtherException, s') /\
    gets s' = 2%nat /\
    request_count s' = 1 /\
    exists evs user_agent,
      trace s' = (evs ++ [Get "https://example.org" user_agent])%list /\
      requests (steps evs) = 1%nat.
Proof.
  apply (fetch_page_uncaught MoreSamples.crashing "https://example.org"
           Samples.scraper 1 OtherException).
  - intros n. reflexivity.
  - simpl. lia.
  - intros [|i] Hi; [reflexivity|lia].
  - reflexivity.
  - right. reflexivity.
Defined.

(** X5.  In every world, interrupts and failures included, one call of
    [fetch_page] sends at most [max_retries] requests, all of them to the
    URL it was given; its waits are positive and at most
    [60 * max_retries] seconds each; and the counter grows by the number of
    the requests sent that got a response, so by no more than the number of
    requests. *)
Theorem fetch_page_bounds {tag : Type} (w : World tag) (url : string) (s : Session) :
  let s' := snd (fetch_page w url s) in
  (gets s <= gets s' <= gets s + Z.to_nat (max_retries s))%nat /\
  request_count s' = request_count s + responses w (gets s) (gets s' - gets s) /\
  request_count s <= request_count s' <= request_count s + Z.of_nat (gets s' - gets s) /\
  exists evs,
    trace s' = (trace s ++ evs)%list /\
    requests (steps evs) = (gets s' - gets s)%nat /\
    Forall (step_within url (max_retries s)) (steps evs).
Proof.
  intros s'.
  destruct (fetch_page_tally w url s) as [[Hg Hc] Hle (evs & Htr & Hf & Hr)].
  fold s' in Hg, Hc, Hle, Htr, Hr.
  pose proof (responses_bounds w (gets s' - gets s) (gets s)).
  split; [lia|]. split; [exact Hc|]. split; [lia|].
  exists evs. repeat split; assumption.
Qed.

(** X6.  No exception of [requests] leaves [fetch_page]: when the call
    raises, it is with a [KeyboardInterrupt] or with an exception that is
    not one of [requests]. *)
Theorem fetch_page_raises_no_request_exception {tag : Type} (w : World tag)
    (url : string) (s : Session) (e : exn) :
  fst (fetch_page w url s) = Raise e ->
  e = KeyboardInterrupt \/ e = OtherException.
Proof.
  unfold fetch_page, bind, read. apply fetch_loop_raises.
Qed.

Lemma fetch_page_raises_no_request_exception_witness :
  OtherException = KeyboardInterrupt \/ OtherException = OtherException.
Proof.
  apply (fetch_page_raises_no_request_exception
           MoreSamples.crashing "https://example.org" Samples.scraper OtherException).
  vm_compute. reflexivity.
Defined.

Lemma random_uniform_between (a b : Q) (r : Z) :
  ((a <= random_uniform a b r /\ random_uniform a b r <= b) \/
   (b <= random_uniform a b r /\ random_uniform a b r <= a))%Q.
Proof.
  destruct (Qlt_le_dec b a) as [Hba|Hab].
  - right. unfold random_uniform.
    destruct (random_random_bounds r) as [H0 H1].
    set (u := random_random r) in *.
    assert (Hd : (0 <= a - b)%Q) by lra.
    assert (Hlo : (0 <= (a - b) * u)%Q) by (apply Qmult_le_0_compat; assumption).
    assert (Hhi : ((a - b) * u <= (a - b) * 1)%Q).
    { rewrite !(Qmult_comm (a - b)). apply Qmult_le_compat_r; [lra|exact Hd]. }
    assert (Heq : ((b - a) * u == - ((a - b) * u))%Q) by ring.
    split; rewrite Heq; lra.
  - left. apply random_uniform_in_range, Hab.
Qed.

Lemma dumps_app (a b : list mark) : dumps (a ++ b) = (dumps a + dumps b)%nat.
Proof. unfold dumps. rewrite filter_app, length_app. reflexivity. Qed.

Lemma delay_marks_app (a b : list mark) :
  delay_marks (a ++ b) = (delay_marks a + delay_marks b)%nat.
Proof. unfold delay_marks. rewrite filter_app, length_app. reflexivity. Qed.

Lemma mark_within_more (pages pages' : list Z) (lo hi : Q) (m : mark) :
  incl pages pages' -> mark_within pages lo hi m -> mark_within pages' lo hi m.
Proof.
  intros Hincl. destruct m as [f|d]; [|auto].
  intros (p & Hin & ->). exists p. split; [apply Hincl, Hin|reflexivity].
Qed.


Section PageFacts.
Context {tag : Type} `{BeautifulSoup tag}.
Variable w : World tag.

(** [_random_delay] by cases: a negative length raises before any sleep;
    otherwise the delay is in the trace, whether or not Ctrl-C cuts it
    short. *)
Lemma random_delay_cases (s : Session) :
  let delay := random_uniform (fst (delay_range s)) (snd (delay_range s))
                              (randbits w (draws s)) in
  let s' := snd (_random_delay w s) in
  gets s' = gets s /\ request_count s' = request_count s /\
  ((fst (_random_delay w s) = Raise OtherException /\ frame [] s s')
   \/ ((0 <= delay)%Q /\
       fst (_random_delay w s)
         = (if sigint w (sleeps s) then Raise KeyboardInterrupt else Normal tt) /\
       frame [Delay delay] s s')).
Proof.
  unfold _random_delay, time_sleep. session_fields.
  destruct (Qlt_le_dec _ 0) as [Hneg|Hpos]; cbn [fst snd]; session_fields.
  - split; [reflexivity|]. split; [reflexivity|]. left. split; [reflexivity|].
    constructor; session_fields; try reflexivity; try lia.
    exists []. rewrite app_nil_r. repeat split; constructor.
  - destruct (sigint w (sleeps s)); cbn [fst snd]; session_fields;
      (split; [reflexivity|]; split; [reflexivity|]; right;
       split; [exact Hpos|]; split; [reflexivity|];
       constructor; session_fields; try reflexivity; try lia;
       eexists; split; [reflexivity|]; repeat split; constructor).
Qed.

Lemma scrape_page_counted (page_num : Z) (s : Session) :
  counted w s (snd (scrape_page w page_num s)) /\
  (gets (snd (scrape_page w page_num s))
   <= gets s + Z.to_nat (max_retries s))%nat.
Proof.
  unfold scrape_page, bind.
  destruct (fetch_page_tally w (page_url page_num) s) as [Hcnt Hg _].
  destruct (fetch_page w (page_url page_num) s) as [[[html|]|e] s1];
    cbn [snd] in *; unfold ret; cbn [snd]; auto.
  destruct (nonempty html); cbn [negb snd]; auto.
  unfold write_file. destruct (disk w (writes s1)); cbn [snd]; session_fields.
  - split; [|exact Hg].
    apply (counted_trans w _ _ _ Hcnt). apply counted_same; reflexivity.
  - split; [|exact Hg].
    apply (counted_trans w _ _ _ Hcnt). apply counted_same; reflexivity.
Qed.

Lemma pages_turn_tally (end_page page_num : Z) (acc : list dict) (s : Session) :
  pages_tally w end_page [page_num] s (snd (pages_turn w end_page page_num acc s)).
Proof.
  unfold pages_turn.
  destruct (scrape_page_counted page_num s) as [Hcnt Hg].
  assert (Hpage : exists marks,
            frame marks s (snd (scrape_page w page_num s)) /\
            (marks = [] \/ marks = [Page (dump_name page_num)])).
  { destruct (scrape_page_frame w page_num s) as [[Hfr _]|[Hfr _]]; eauto. }
  destruct Hpage as (marks & Hfr & Hmarks).
  assert (Hok : Forall (mark_within [page_num] (fst (delay_range s))
                                    (snd (delay_range s))) marks /\
                (dumps marks <= 1)%nat /\ delay_marks marks = 0%nat).
  { destruct Hmarks as [-> | ->]; repeat split; try constructor; cbn; try lia.
    - exists page_num. split; [left; reflexivity|reflexivity].
    - constructor. }
  destruct Hok as (Hf & Hd & Hdm).
  assert (Hstop : pages_tally w end_page [page_num] s (snd (scrape_page w page_num s))).
  { constructor; [exact Hcnt|simpl; lia|].
    exists marks. split; [exact Hfr|]. split; [exact Hf|]. split; [simpl; lia|lia]. }
  destruct (scrape_page w page_num s) as [[compounds|e] s1]; cbn [snd] in *;
    [|exact Hstop].
  destruct (page_num <? end_page) eqn:Hlt; [|exact Hstop].
  pose proof (random_delay_cases s1) as Hdelay. cbv zeta in Hdelay.
  destruct Hdelay as (Hg' & Hc' & Hcase).
  assert (Hcnt' : counted w s (snd (_random_delay w s1))).
  { apply (counted_trans w _ _ _ Hcnt). apply counted_same; assumption. }
  assert (Hgets : (gets (snd (_random_delay w s1))
                   <= gets s + List.length [page_num] * Z.to_nat (max_retries s))%nat).
  { rewrite Hg'. simpl. lia. }
  assert (Hend : pages_tally w end_page [page_num] s (snd (_random_delay w s1))
                 -> pages_tally w end_page [page_num] s
                      (snd (let (o, s2) := _random_delay w s1 in
                            match o with
                            | Normal _ => (Next, (acc ++ compounds)%list, s2)
                            | Raise e => (pages_except e, (acc ++ compounds)%list, s2)
                            end))).
  { destruct (_random_delay w s1) as [[[]|e] s2]; auto. }
  apply Hend. constructor; [exact Hcnt'|exact Hgets|].
  destruct Hcase as [(_ & Hfd)|(Hpos & _ & Hfd)].
  - exists (marks ++ [])%list. split; [|split; [|split]].
    + apply (frame_trans _ _ _ _ _ Hfr Hfd).
    + rewrite app_nil_r. exact Hf.
    + rewrite app_nil_r. simpl. lia.
    + rewrite app_nil_r. cbn [List.length]. lia.
  - exists (marks ++ [Delay (random_uniform (fst (delay_range s1)) (snd (delay_range s1))
                                          (randbits w (draws s1)))])%list.
    split; [|split; [|split]].
    + apply (frame_trans _ _ _ _ _ Hfr Hfd).
    + apply Forall_app. split; [exact Hf|]. constructor; [|constructor].
      rewrite <- (fr_delay_range _ _ _ Hfr).
      split; [exact Hpos|apply random_uniform_between].
    + rewrite dumps_app. change (dumps [Delay _]) with 0%nat.
      cbn [List.length]. lia.
    + rewrite delay_marks_app, Hdm. change (delay_marks [Delay _]) with 1%nat.
      cbn [filter]. rewrite Hlt. cbn [List.length]. lia.
Qed.

Lemma pages_loop_tally (end_page : Z) (pages : list Z) :
  forall acc s,
    pages_tally w end_page pages s (snd (pages_loop w end_page pages acc s)).
Proof.
  induction pages as [|page_num rest IH]; intros acc s.
  - cbn. constructor; [apply counted_refl|lia|].
    exists []. split; [apply frame_refl|]. split; [constructor|]. split; cbn; lia.
  - cbn [pages_loop].
    pose proof (pages_turn_tally end_page page_num acc s) as Hturn.
    assert (Hwiden : forall s1,
              pages_tally w end_page [page_num] s s1 ->
              pages_tally w end_page (page_num :: rest) s s1).
    { intros s1 [Hcnt Hg (marks & Hfr & Hf & Hd & Hdm)].
      constructor; [exact Hcnt|cbn [List.length] in *; lia|].
      exists marks. split; [exact Hfr|]. split; [|split; [cbn [List.length] in *; lia|]].
      - eapply Forall_impl; [|exact Hf]. intros m.
        apply mark_within_more. intros p [<-|[]]. left. reflexivity.
      - cbn [filter] in *. destruct (page_num <? end_page); cbn [List.length] in *; lia. }
    destruct (pages_turn w end_page page_num acc s) as [[[] acc1] s1]; cbn [snd] in *;
      [|apply Hwiden, Hturn].
    specialize (IH acc1 s1).
    destruct Hturn as [Hcnt Hg (marks & Hfr & Hf & Hd & Hdm)].
    destruct IH as [Hcnt' Hg' (marks' & Hfr' & Hf' & Hd' & Hdm')].
    rewrite (fr_max_retries _ _ _ Hfr) in Hg'.
    rewrite (fr_delay_range _ _ _ Hfr) in Hf'.
    constructor; [apply (counted_trans w _ _ _ Hcnt Hcnt')|cbn [List.length] in *; lia|].
    exists (marks ++ marks')%list. split; [|split; [|split]].
    + apply (frame_trans _ _ _ _ _ Hfr Hfr').
    + apply Forall_app. split.
      * eapply Forall_impl; [|exact Hf]. intros m.
        apply mark_within_more. intros p [<-|[]]. left. reflexivity.
      * eapply Forall_impl; [|exact Hf']. intros m.
        apply mark_within_more. intros p Hp. right. exact Hp.
    + rewrite dumps_app. cbn [List.length] in *. lia.
    + rewrite delay_marks_app. cbn [filter] in *.
      destruct (page_num <? end_page); cbn [List.length] in *; lia.
Qed.

Lemma run_op_counted (o : op) (s : Session) : counted w s (run_op w o s).
Proof.
  destruct o as [url|page_num|a b| | |]; cbn [run_op].
  - apply (lt_counted _ _ _ _ _ _ (fetch_page_tally w url s)).
  - apply scrape_page_counted.
  - unfold scrape_multiple_pages.
    pose proof (pt_counted _ _ _ _ _ (pages_loop_tally b (range2 a (b + 1)) [] s)) as Hc.
    destruct (pages_loop w b (range2 a (b + 1)) [] s) as [[f r] s']. exact Hc.
  - pose proof (random_delay_cases s) as Hd. cbv zeta in Hd.
    destruct Hd as (Hg & Hc & _). apply counted_same; assumption.
  - unfold _rotate_user_agent. rewrite random_choice_user_agents. cbn [snd].
    apply counted_same; reflexivity.
  - destruct (check_rate_limit_any w s) as (o & -> & _). cbn [snd].
    unfold after_check. destruct (throttled _ _); apply counted_same; reflexivity.
Qed.

Lemma run_ops_counted (ops : list op) :
  forall s, counted w s (run_ops w ops s).
Proof.
  induction ops as [|o ops IH]; intros s; [apply counted_refl|].
  cbn [run_ops fold_left].
  apply (counted_trans w _ _ _ (run_op_counted o s)). apply IH.
Qed.

End PageFacts.

Lemma throttled_iff (count : Z) (e : Q) :
  throttled count e = true <-> (0 < e /\ e < inject_Z (2 * count))%Q.
Proof.
  unfold throttled.
  assert (H2 : (inject_Z (2 * count) == 2 * inject_Z count)%Q)
    by (rewrite inject_Z_mult; reflexivity).
  destruct (Qlt_le_dec 0 e) as [Hpos|Hneg].
  - assert (Hne : ~ (e == 0)%Q) by lra.
    assert (Hmul : (inject_Z count / e * e == inject_Z count)%Q) by (field; exact Hne).
    destruct (Qlt_le_dec (1 # 2) (inject_Z count / e)) as [Hfast|Hslow].
    + split; [intros _|reflexivity]. split; [exact Hpos|].
      assert (((1 # 2) * e < inject_Z count / e * e)%Q)
        by (apply Qmult_lt_compat_r; assumption).
      lra.
    + split; [discriminate|]. intros [_ Hlt]. exfalso.
      assert ((inject_Z count / e * e <= (1 # 2) * e)%Q)
        by (apply Qmult_le_compat_r; [assumption|lra]).
      lra.
  - split; [discriminate|]. intros [Hpos _]. exfalso. lra.
Qed.

Section ScrapeFacts.
Context {tag : Type} `{BeautifulSoup tag}.
Variable w : World tag.
Hypothesis no_sigint : forall n, sigint w n = false.

(** A page that is answered with status 200 at the [k+1]-th attempt. *)
Lemma fetch_page_returns (url : string) (s : Session) (k : nat) (html : string) :
  (k < Z.to_nat (max_retries s))%nat ->
  (forall i, (i < k)%nat -> retried (http w (gets s + i)) = true) ->
  http w (gets s + k) = Response 200 html ->
  exists s1,
    fetch_page w url s = (Normal (Some html), s1) /\
    gets s1 = (gets s + S k)%nat /\
    writes s1 = writes s /\
    frame [] s s1.
Proof.
  intros Hk Hbefore Hr.
  destruct (fetch_page_lands w no_sigint url s k Hk Hbefore)
    as (s1 & Hrun & Hg & _).
  { rewrite Hr. reflexivity. }
  rewrite Hr in Hrun. cbn [verdict Z.eqb Pos.eqb] in Hrun.
  destruct (fetch_page_frame w url s) as [Hfr Hwr]. rewrite Hrun in Hfr, Hwr.
  exists s1. auto.
Qed.



End ScrapeFacts.



(** ** More on the session, the pages and the page loop *)

(** X7.  Whatever operations run on a session and however they end, its
    request counter has grown by exactly the number of the requests sent
    meanwhile that got a response; for a fresh scraper the counter is the
    number of responses received so far. *)
Theorem session_counts_responses {tag : Type} `{BeautifulSoup tag} (w : World tag) :
  (forall ops s,
      (gets s <= gets (run_ops w ops s))%nat /\
      request_count (run_ops w ops s) =
        request_count s + responses w (gets s) (gets (run_ops w ops s) - gets s)) /\
  (forall ops delay_range max_retries,
      let s' := run_ops w ops (init delay_range max_retries) in
      request_count s' = responses w 0 (gets s') /\
      0 <= request_count s' <= Z.of_nat (gets s')).
Proof.
  split.
  - intros ops s. destruct (run_ops_counted w ops s) as [Hg Hc]. auto.
  - intros ops dr mr s'.
    destruct (run_ops_counted w ops (init dr mr)) as [Hg Hc]. fold s' in Hg, Hc.
    cbn [init gets request_count] in Hc. rewrite Nat.sub_0_r in Hc.
    pose proof (responses_bounds w (gets s') 0). split; lia.
Qed.

(** X8.  The rate check pauses exactly when some time has elapsed and it is
    less than two seconds per request made so far; in particular it never
    pauses before the first request is counted. *)
Theorem rate_check_two_seconds_per_request {tag : Type} (w : World tag) (s : Session) :
  let elapsed_time := elapsed w (clock_reads s) in
  let s' := snd (_check_rate_limit w s) in
  ((0 < elapsed_time /\ elapsed_time < inject_Z (2 * request_count s))%Q ->
   trace s' = (trace s ++ [Sleep Throttle 2])%list) /\
  (~ (0 < elapsed_time /\ elapsed_time < inject_Z (2 * request_count s))%Q ->
   trace s' = trace s) /\
  (request_count s <= 0 -> trace s' = trace s).
Proof.
  intros e s'. subst s'.
  destruct (check_rate_limit_any w s) as (o & -> & _). cbn [snd].
  unfold after_check. fold e.
  pose proof (throttled_iff (request_count s) e) as Hiff.
  assert (Hnone : request_count s <= 0 ->
                  ~ (0 < e /\ e < inject_Z (2 * request_count s))%Q).
  { intros Hc [Hpos Hlt].
    assert ((inject_Z (2 * request_count s) <= 0)%Q)
      by (unfold Qle; cbn [Qnum Qden inject_Z]; lia).
    lra. }
  destruct (throttled (request_count s) e); session_fields.
  - split; [reflexivity|]. split.
    + intros Hn. exfalso. apply Hn, Hiff. reflexivity.
    + intros Hc. exfalso. apply (Hnone Hc), Hiff. reflexivity.
  - split; [|auto]. intros Hy. apply Hiff in Hy. discriminate.
Qed.

(** X9.  When the page is answered with status 200 and a body that is not
    empty (at any attempt, the earlier ones being retried) and the dump file
    can be written, [scrape_page] requests the URL of that page, writes the
    body as it came into [page_<n>_raw.html], and returns what
    [parse_compounds] makes of the same body. *)
Theorem scrape_page_dumps_what_it_parses {tag : Type} `{BeautifulSoup tag}
    (w : World tag) (page_num : Z) (s : Session) (k : nat) (html : string) :
  (forall n, sigint w n = false) ->
  (k < Z.to_nat (max_retries s))%nat ->
  (forall i, (i < k)%nat -> retried (http w (gets s + i)) = true) ->
  http w (gets s + k) = Response 200 html ->
  nonempty html = true ->
  disk w (writes s) = None ->
  exists s',
    scrape_page w page_num s = (Normal (parse_compounds w html), s') /\
    gets s' = (gets s + S k)%nat /\
    writes s' = S (writes s) /\
    exists evs,
      trace s' = (trace s ++ evs ++ [Dump (dump_name page_num) html])%list /\
      pace evs = [] /\
      Forall (fun st => match st with
                        | Request url => url = page_url page_num
                        | Wait _ => True
                        end) (steps evs).
Proof.
  intros Hsig Hk Hbefore Hr Hhtml Hdisk.
  destruct (fetch_page_returns w Hsig (page_url page_num) s k html Hk Hbefore Hr)
    as (s1 & Hrun & Hg & Hwr & Hfr).
  destruct (fetch_page_tally w (page_url page_num) s) as [_ _ (evs & Htr & Hf & _)].
  rewrite Hrun in Htr. cbn [snd] in Htr.
  destruct (fr_trace _ _ _ Hfr) as (evs' & Htr' & Hpace & _).
  assert (evs' = evs) by (apply (app_inv_head (trace s)); congruence). subst evs'.
  exists (log (Dump (dump_name page_num) html) (tick_writes s1)).
  split; [|split; [|split]].
  - unfold scrape_page, bind. rewrite Hrun, Hhtml. cbn [negb].
    unfold write_file. rewrite Hwr, Hdisk. reflexivity.
  - exact Hg.
  - cbn. rewrite Hwr. reflexivity.
  - exists evs. split; [|split; [exact Hpace|]].
    + session_fields. rewrite Htr, app_assoc. reflexivity.
    + eapply Forall_impl; [|exact Hf]. intros [u|q]; cbn; auto.
Qed.

Lemma scrape_page_dumps_what_it_parses_witness :
  exists s',
    scrape_page Samples.slow_start 7 Samples.scraper
      = (Normal (parse_compounds Samples.slow_start "<html>page</html>"), s') /\
    gets s' = 2%nat /\
    writes s' = 1%nat /\
    exists evs,
      trace s' = (evs ++ [Dump "page_7_raw.html" "<html>page</html>"])%list /\
      pace evs = [] /\
      Forall (fun st => match st with
                        | Request url =>
                            url = "https://www.medchemexpress.cn/NaturalProducts/endogenous-metabolites.html?page=7"
                        | Wait _ => True
                        end) (steps evs).
Proof.
  apply (scrape_page_dumps_what_it_parses Samples.slow_start 7 Samples.scraper 1).
  - intros n. reflexivity.
  - simpl. lia.
  - intros [|i] Hi; [reflexivity|lia].
  - reflexivity.
  - reflexivity.
  - reflexivity.
Defined.

(** X10.  A response with status 200 and an empty body counts as a failed
    page for [scrape_page], yet is not retried: the call returns no record
    after that one request, and writes no dump file. *)
Theorem scrape_page_empty_body {tag : Type} `{BeautifulSoup tag}
    (w : World tag) (page_num : Z) (s : Session) (k : nat) :
  (forall n, sigint w n = false) ->
  (k < Z.to_nat (max_retries s))%nat ->
  (forall i, (i < k)%nat -> retried (http w (gets s + i)) = true) ->
  http w (gets s + k) = Response 200 "" ->
  exists s',
    scrape_page w page_num s = (Normal [], s') /\
    gets s' = (gets s + S k)%nat /\
    writes s' = writes s /\
    exists evs, trace s' = (trace s ++ evs)%list /\ pace evs = [].
Proof.
  intros Hsig Hk Hbefore Hr.
  destruct (fetch_page_returns w Hsig (page_url page_num) s k "" Hk Hbefore Hr)
    as (s1 & Hrun & Hg & Hwr & Hfr).
  exists s1. split; [|split; [exact Hg|split; [exact Hwr|]]].
  - unfold scrape_page, bind. rewrite Hrun. reflexivity.
  - destruct (fr_trace _ _ _ Hfr) as (evs & Htr & Hpace & _). eauto.
Qed.

Lemma scrape_page_empty_body_witness :
  exists s',
    scrape_page PageSamples.blank 1 Samples.scraper = (Normal [], s') /\
    gets s' = 1%nat /\
    writes s' = 0%nat /\
    exists evs, trace s' = evs /\ pace evs = [].
Proof.
  apply (scrape_page_empty_body PageSamples.blank 1 Samples.scraper 0).
  - intros n. reflexivity.
  - simpl. lia.
  - intros i Hi. lia.
  - reflexivity.
Defined.

(** X11.  When the page has been fetched but its dump file cannot be
    written, [scrape_page] raises the error of the write and returns no
    record of the page; in the page loop such a page adds nothing to the
    list. *)
Theorem scrape_page_dump_fails {tag : Type} `{BeautifulSoup tag}
    (w : World tag) (page_num : Z) (s : Session) (k : nat) (html : string)
    (e : exn) :
  (forall n, sigint w n = false) ->
  (k < Z.to_nat (max_retries s))%nat ->
  (forall i, (i < k)%nat -> retried (http w (gets s + i)) = true) ->
  http w (gets s + k) = Response 200 html ->
  nonempty html = true ->
  disk w (writes s) = Some e ->
  exists s',
    scrape_page w page_num s = (Raise e, s') /\
    (forall end_page acc,
        pages_turn w end_page page_num acc s = (pages_except e, acc, s')) /\
    gets s' = (gets s + S k)%nat /\
    exists evs, trace s' = (trace s ++ evs)%list /\ pace evs = [].
Proof.
  intros Hsig Hk Hbefore Hr Hhtml Hdisk.
  destruct (fetch_page_returns w Hsig (page_url page_num) s k html Hk Hbefore Hr)
    as (s1 & Hrun & Hg & Hwr & Hfr).
  assert (Hpage : scrape_page w page_num s = (Raise e, tick_writes s1)).
  { unfold scrape_page, bind. rewrite Hrun, Hhtml. cbn [negb].
    unfold write_file. rewrite Hwr, Hdisk. reflexivity. }
  exists (tick_writes s1). split; [exact Hpage|]. split; [|split; [exact Hg|]].
  - intros end_page acc. unfold pages_turn. rewrite Hpage. reflexivity.
  - destruct (fr_trace _ _ _ Hfr) as (evs & Htr & Hpace & _). eauto.
Qed.

Lemma scrape_page_dump_fails_witness :
  exists s',
    scrape_page PageSamples.disk_full 1 Samples.scraper = (Raise OtherException, s') /\
    (forall end_page acc,
        pages_turn PageSamples.disk_full end_page 1 acc Samples.scraper
          = (Next, acc, s')) /\
    gets s' = 1%nat /\
    exists evs, trace s' = evs /\ pace evs = [].
Proof.
  apply (scrape_page_dump_fails PageSamples.disk_full 1 Samples.scraper 0
           "<html>page</html>" OtherException).
  - intros n. reflexivity.
  - simpl. lia.
  - intros i Hi. lia.
  - reflexivity.
  - reflexivity.
  - reflexivity.
Defined.




(** X14.  On a range of one page, [scrape_multiple_pages] is [scrape_page]
    with every exception turned into an empty result: the same requests,
    the same dump, and no delay. *)
Theorem scrape_multiple_pages_one_page {tag : Type} `{BeautifulSoup tag}
    (w : World tag) (page_num : Z) (s : Session) :
  scrape_multiple_pages w page_num page_num s =
    (Normal (match fst (scrape_page w page_num s) with
             | Normal compounds => compounds
             | Raise _ => []
             end),
     snd (scrape_page w page_num s)).
Proof.
  unfold scrape_multiple_pages, range2.
  replace (page_num + 1 - page_num) with 1 by lia.
  change (Z.to_nat 1) with 1%nat. cbn [count_from pages_loop]. unfold pages_turn.
  destruct (scrape_page w page_num s) as [[compounds|e] s1]; cbn [fst snd app].
  - rewrite (Z.ltb_irrefl page_num). reflexivity.
  - destruct e; reflexivity.
Qed.

Lemma dict_get_put (k k' : string) (o : option string) (d : dict) :
  dict_get k (put k' o d) =
    if String.eqb k k'
    then match o with Some v => Some v | None => dict_get k d end
    else dict_get k d.
Proof.
  destruct o as [v|]; cbn [put].
  - apply dict_get_set.
  - destruct (String.eqb k k'); reflexivity.
Qed.

(** Reading a field back from a record built stage by stage. *)
Lemma put_fields_get (catalog_no url name_en name_cn cas_no purity description
                      structure_image : option string) (k : string) (o : option string) :
  In (k, o) [ ("catalog_no", catalog_no); ("url", url); ("name_en", name_en);
              ("name_cn", name_cn); ("cas_no", cas_no); ("purity", purity);
              ("description", description); ("structure_image", structure_image) ] ->
  dict_get k
    (put "structure_image" structure_image
       (put "description" description
          (put "purity" purity
             (put "cas_no" cas_no
                (put "name_cn" name_cn
                   (put "name_en" name_en
                      (put "url" url
                         (put "catalog_no" catalog_no [])))))))) = o.
Proof.
  intros Hin. cbn [In] in Hin.
  repeat (destruct Hin as [[= <- <-]|Hin];
          [destruct catalog_no, url, name_en, name_cn, cas_no, purity, description,
                    structure_image; reflexivity|]).
  destruct Hin.
Qed.

Lemma append_inv_head (p a b : string) : p ++ a = p ++ b -> a = b.
Proof.
  induction p as [|c p IH]; cbn [String.append]; intros Heq; [exact Heq|].
  injection Heq as Heq. exact (IH Heq).
Qed.

Lemma append_length (a b : string) :
  String.length (a ++ b) = (String.length a + String.length b)%nat.
Proof.
  induction a as [|c a IH]; cbn [String.append String.length Nat.add];
    [reflexivity|]. rewrite IH. reflexivity.
Qed.

Lemma append_inv_tail (a b t : string) : a ++ t = b ++ t -> a = b.
Proof.
  intros Heq.
  assert (Hlen : String.length a = String.length b).
  { apply (f_equal String.length) in Heq. rewrite !append_length in Heq. lia. }
  revert b Heq Hlen.
  induction a as [|c a IH]; intros [|c' b] Heq Hlen;
    cbn [String.length] in Hlen; try discriminate Hlen; [reflexivity|].
  cbn [String.append] in Heq. injection Heq as Hc Heq.
  rewrite Hc, (IH b Heq) by lia. reflexivity.
Qed.

Lemma NoDup_map_injective {A B} (f : A -> B) (l : list A) :
  (forall a b, f a = f b -> a = b) -> NoDup l -> NoDup (map f l).
Proof.
  intros Hinj Hl. induction Hl as [|a l Hnot _ IH]; cbn [map]; constructor;
    [|exact IH].
  intros Hin. apply in_map_iff in Hin as (b & Heq & Hb).
  apply Hinj in Heq. subst b. exact (Hnot Hb).
Qed.

Lemma str_inj (a b : Z) : str a = str b -> a = b.
Proof.
  unfold str. intros Heq.
  assert (Hnil : forall n, Z.to_int n <> Decimal.Pos Decimal.Nil /\
                           Z.to_int n <> Decimal.Neg Decimal.Nil).
  { intros [|p|p]; cbn [Z.to_int]; split; try discriminate;
      intros Hp; injection Hp as Hp;
      exact (DecimalPos.Unsigned.to_uint_nonnil p Hp). }
  apply (f_equal NilZero.int_of_string) in Heq.
  destruct (Hnil a) as [Ha1 Ha2]. destruct (Hnil b) as [Hb1 Hb2].
  rewrite !NilZero.isi in Heq by assumption.
  injection Heq as Heq. exact (DecimalZ.to_int_inj _ _ Heq).
Qed.

Section RecordFacts.

Context {tag : Type} `{BeautifulSoup tag}.

(** What a record is made of: each stage of the parser stores the fields
    it has found, in its turn. *)
Lemma parse_item_shape (item : tag) :
  exists catalog_no url name_en name_cn cas_no purity description structure_image,
    parse_item item =
      put "structure_image" structure_image
        (put "description" description
           (put "purity" purity
              (put "cas_no" cas_no
                 (put "name_cn" name_cn
                    (put "name_en" name_en
                       (put "url" url
                          (put "catalog_no" catalog_no [])))))))  /\
    (forall u, url = Some u ->
               catalog_no <> None /\
               exists href, u = base_url ++ href /\ startswith href "/" = true) /\
    (forall t, cas_no = Some t -> nonempty t = true) /\
    (forall t, purity = Some t -> nonempty t = true) /\
    (forall t, description = Some t -> nonempty t = true) /\
    (forall src, structure_image = Some src -> startswith src "//" = false).
Proof.
  assert (Htext : forall name class_ key d,
             exists o, parse_text item name class_ key d = put key o d /\
                       forall t, o = Some t -> nonempty t = true).
  { intros name class_ key d. unfold parse_text.
    destruct (find item name _) as [t|].
    - destruct (nonempty (get_text t)) eqn:Hne.
      + exists (Some (get_text t)). split; [reflexivity|].
        intros t' [= <-]. exact Hne.
      + exists None. split; [reflexivity|]. discriminate.
    - exists None. split; [reflexivity|]. discriminate. }
  assert (Hcat : forall d,
             exists c u, parse_catalog item d = put "url" u (put "catalog_no" c d) /\
                         forall x, u = Some x ->
                                   c <> None /\
                                   exists href, x = base_url ++ href /\
                                                startswith href "/" = true).
  { intros d. unfold parse_catalog.
    destruct (find item "dt" _) as [t|];
      [destruct (find t "a" _) as [a|]|].
    - destruct (startswith (get a "href" "") "/") eqn:Hs.
      + exists (Some (get_text a)), (Some (base_url ++ get a "href" "")).
        split; [reflexivity|]. intros x [= <-]. split; [discriminate|].
        exists (get a "href" ""). split; [reflexivity|exact Hs].
      + exists (Some (get_text a)), None. split; [reflexivity|]. discriminate.
    - exists None, None. split; [reflexivity|]. discriminate.
    - exists None, None. split; [reflexivity|]. discriminate. }
  assert (Hname : forall d,
             exists e c, parse_name item d = put "name_cn" c (put "name_en" e d)).
  { intros d. unfold parse_name.
    destruct (find item "th" _) as [t|]; [|exists None, None; reflexivity].
    exists (match find t "strong" [] with
            | Some strong_tag => Some (get_text strong_tag)
            | None => None
            end),
           (match find t "p" [("id", "list-name-cn")] with
            | Some p => match find p "a" [] with
                        | Some cn_link => Some (get_text cn_link)
                        | None => None
                        end
            | None => None
            end).
    destruct (find t "strong" []); destruct (find t "p" _) as [p|];
      try destruct (find p "a" []); reflexivity. }
  assert (Himg : forall d,
             exists o, parse_structure item d = put "structure_image" o d /\
                       forall src, o = Some src -> startswith src "//" = false).
  { intros d. unfold parse_structure.
    destruct (find item "dt" _) as [t|];
      [destruct (find t "img" _) as [i|]|].
    - destruct (startswith (get i "src" "") "//") eqn:Hs.
      + exists (Some ("https:" ++ get i "src" "")). split; [reflexivity|].
        intros src [= <-]. reflexivity.
      + exists (Some (get i "src" "")). split; [reflexivity|].
        intros src [= <-]. exact Hs.
    - exists None. split; [reflexivity|]. discriminate.
    - exists None. split; [reflexivity|]. discriminate. }
  unfold parse_item.
  destruct (Hcat []) as (c & u & -> & Hu).
  destruct (Hname (put "url" u (put "catalog_no" c []))) as (e & n & ->).
  destruct (Htext "th" "dnr_pro_list_cas" "cas_no"
              (put "name_cn" n (put "name_en" e (put "url" u (put "catalog_no" c [])))))
    as (cas & -> & Hcas).
  destruct (Htext "th" "dnr_pro_list_purity" "purity"
              (put "cas_no" cas
                 (put "name_cn" n (put "name_en" e (put "url" u (put "catalog_no" c []))))))
    as (pur & -> & Hpur).
  destruct (Htext "td" "dnr_pro_list_brief" "description"
              (put "purity" pur
                 (put "cas_no" cas
                    (put "name_cn" n
                       (put "name_en" e (put "url" u (put "catalog_no" c [])))))))
    as (desc & -> & Hdesc).
  destruct (Himg (put "description" desc
                    (put "purity" pur
                       (put "cas_no" cas
                          (put "name_cn" n
                             (put "name_en" e (put "url" u (put "catalog_no" c []))))))))
    as (img & -> & Himg').
  exists c, u, e, n, cas, pur, desc, img.
  split; [reflexivity|]. split; [exact Hu|]. split; [exact Hcas|].
  split; [exact Hpur|]. split; [exact Hdesc|exact Himg'].
Qed.

End RecordFacts.

(** ** The records *)

(** X15.  Every record that [parse_compounds] builds lists its fields in
    one fixed order (catalog_no, url, name_en, name_cn, cas_no, purity,
    description, structure_image), each field at most once: a record has at
    most eight fields, and the records returned have from three to eight. *)
Theorem parse_item_keys {tag : Type} `{BeautifulSoup tag} (w : World tag) :
  (forall item : tag,
      keys (parse_item item) = filter (has_key (parse_item item)) field_names /\
      NoDup (keys (parse_item item)) /\
      0 <= len (parse_item item) <= 8) /\
  (forall html compound,
      In compound (parse_compounds w html) ->
      keys compound = filter (has_key compound) field_names /\
      3 <= len compound <= 8).
Proof.
  assert (Hitem : forall item : tag,
             keys (parse_item item) = filter (has_key (parse_item item)) field_names /\
             NoDup (keys (parse_item item)) /\
             0 <= len (parse_item item) <= 8).
  { intros item.
    destruct (parse_item_shape item)
      as (c & u & e & n & cas & pur & desc & img & Hshape & _).
    assert (Hkeys : keys (parse_item item)
                    = filter (has_key (parse_item item)) field_names).
    { rewrite Hshape. destruct c, u, e, n, cas, pur, desc, img; reflexivity. }
    split; [exact Hkeys|]. split.
    - rewrite Hkeys. apply NoDup_filter. unfold field_names.
      repeat constructor; cbn; intuition discriminate.
    - unfold len. rewrite <- (length_map fst (parse_item item)).
      fold (keys (parse_item item)). rewrite Hkeys.
      pose proof (filter_length_le (has_key (parse_item item)) field_names) as Hle.
      cbn [field_names List.length] in Hle. lia. }
  split; [exact Hitem|].
  intros html compound Hin. unfold parse_compounds in Hin.
  destruct (negb (nonempty html)); [destruct Hin|].
  destruct (product_items w html) as [items|]; [|destruct Hin].
  rewrite parse_items_filter in Hin. cbn [app] in Hin.
  apply filter_In in Hin as [Hin Hlen].
  apply in_map_iff in Hin as (item & <- & _).
  destruct (Hitem item) as (Hk & _ & Hl). split; [exact Hk|lia].
Qed.

(** X16.  What the fields of a record hold: a record with a url has a
    catalog number, and its url is the base URL followed by a path that
    starts with a slash; cas_no, purity and description are never empty when
    present; structure_image never starts with two slashes. *)
Theorem parse_item_fields {tag : Type} `{BeautifulSoup tag} (item : tag) :
  (forall u, dict_get "url" (parse_item item) = Some u ->
             has_key (parse_item item) "catalog_no" = true /\
             exists href, u = base_url ++ href /\ startswith href "/" = true) /\
  (forall t, dict_get "cas_no" (parse_item item) = Some t -> nonempty t = true) /\
  (forall t, dict_get "purity" (parse_item item) = Some t -> nonempty t = true) /\
  (forall t, dict_get "description" (parse_item item) = Some t -> nonempty t = true) /\
  (forall src, dict_get "structure_image" (parse_item item) = Some src ->
               startswith src "//" = false).
Proof.
  destruct (parse_item_shape item)
    as (c & u & e & n & cas & pur & desc & img & -> & Hu & Hcas & Hpur & Hdesc & Himg).
  unfold has_key.
  rewrite (put_fields_get c u e n cas pur desc img "catalog_no" c),
          (put_fields_get c u e n cas pur desc img "url" u),
          (put_fields_get c u e n cas pur desc img "cas_no" cas),
          (put_fields_get c u e n cas pur desc img "purity" pur),
          (put_fields_get c u e n cas pur desc img "description" desc),
          (put_fields_get c u e n cas pur desc img "structure_image" img)
    by (cbn; tauto).
  split; [|split; [|split; [|split]]].
  - intros x Hx. destruct (Hu x Hx) as [Hc Hhref].
    split; [|exact Hhref]. destruct c; [reflexivity|contradiction].
  - exact Hcas.
  - exact Hpur.
  - exact Hdesc.
  - exact Himg.
Qed.

(** X17.  Different page numbers give different page URLs and different
    dump files: no page of a range is requested under the URL of another,
    and no dump overwrites the dump of another page. *)
Theorem page_url_and_dump_name_injective (p q : Z) :
  (page_url p = page_url q -> p = q) /\
  (dump_name p = dump_name q -> p = q) /\
  NoDup (map page_url (range2 p (q + 1))) /\
  NoDup (map dump_name (range2 p (q + 1))).
Proof.
  assert (Hurl : forall a b, page_url a = page_url b -> a = b).
  { intros a b Heq. unfold page_url in Heq.
    apply append_inv_head, append_inv_head in Heq. exact (str_inj _ _ Heq). }
  assert (Hdump : forall a b, dump_name a = dump_name b -> a = b).
  { intros a b Heq. unfold dump_name in Heq.
    apply append_inv_head, append_inv_tail in Heq. exact (str_inj _ _ Heq). }
  assert (Hnodup : forall n a, NoDup (count_from a n)).
  { induction n as [|n IH]; intros a; cbn [count_from]; constructor; [|apply IH].
    intros Hin. pose proof (count_from_between (a + 1) n) as Hall.
    rewrite Forall_forall in Hall. specialize (Hall a Hin). lia. }
  split; [apply Hurl|]. split; [apply Hdump|].
  unfold range2. split; apply NoDup_map_injective; auto.
Qed.

Section NoBudget.

Context {tag : Type} `{BeautifulSoup tag}.
Variable w : World tag.

Lemma fetch_page_no_attempt (url : string) (s : Session) :
  max_retries s <= 0 -> fetch_page w url s = (Normal None, s).
Proof.
  intros Hmr. unfold fetch_page, bind, read, range, range2.
  replace (Z.to_nat (max_retries s - 0)) with 0%nat by lia. reflexivity.
Qed.

Lemma scrape_page_no_attempt (page_num : Z) (s : Session) :
  max_retries s <= 0 -> scrape_page w page_num s = (Normal [], s).
Proof.
  intros Hmr. unfold scrape_page, bind.
  rewrite (fetch_page_no_attempt _ s Hmr). reflexivity.
Qed.

Lemma pages_loop_no_attempt (end_page : Z) (pages : list Z) :
  forall acc s,
    max_retries s <= 0 ->
    exists f s',
      pages_loop w end_page pages acc s = (f, acc, s') /\
      gets s' = gets s /\ writes s' = writes s /\
      request_count s' = request_count s.
Proof.
  induction pages as [|p pages IH]; intros acc s Hmr.
  - exists Next, s. split; [reflexivity|]. auto.
  - cbn [pages_loop]. unfold pages_turn.
    rewrite (scrape_page_no_attempt p s Hmr), app_nil_r.
    destruct (p <? end_page).
    + destruct (random_delay_cases w s) as (Hg & Hc & Hcases).
      destruct (random_delay_frame w s) as (Hw & _).
      assert (Hmr' : max_retries (snd (_random_delay w s)) <= 0).
      { destruct Hcases as [(_ & Hfr)|(_ & _ & Hfr)];
          rewrite (fr_max_retries _ _ _ Hfr); exact Hmr. }
      destruct (_random_delay w s) as [[[]|e] s2]; cbn [fst snd] in *.
      * destruct (IH acc s2 Hmr') as (f & s' & -> & Hg' & Hw' & Hc').
        exists f, s'. split; [destruct f; reflexivity|].
        split; [congruence|]. split; congruence.
      * destruct e; cbn [pages_except];
          try (destruct (IH acc s2 Hmr') as (f & s' & -> & Hg' & Hw' & Hc');
               exists f, s'; split; [destruct f; reflexivity|];
               split; [congruence|]; split; congruence).
        exists Break, s2. split; [reflexivity|]. auto.
    + destruct (IH acc s Hmr) as (f & s' & -> & Hg' & Hw' & Hc').
      exists f, s'. split; [destruct f; reflexivity|]. auto.
Qed.

End NoBudget.

(** X18.  A scraper whose [max_retries] is zero or negative never sends a
    request: [fetch_page] returns [None] and [scrape_page] an empty list
    with the session untouched, and [scrape_multiple_pages] returns an empty
    list for any range, having sent no request, counted none and written no
    file. *)
Theorem no_retry_budget {tag : Type} `{BeautifulSoup tag} (w : World tag)
    (s : Session) :
  max_retries s <= 0 ->
  (forall url, fetch_page w url s = (Normal None, s)) /\
  (forall page_num, scrape_page w page_num s = (Normal [], s)) /\
  (forall a b,
      fst (scrape_multiple_pages w a b s) = Normal [] /\
      gets (snd (scrape_multiple_pages w a b s)) = gets s /\
      writes (snd (scrape_multiple_pages w a b s)) = writes s /\
      request_count (snd (scrape_multiple_pages w a b s)) = request_count s).
Proof.
  intros Hmr. split; [|split].
  - intros url. apply fetch_page_no_attempt, Hmr.
  - intros page_num. apply scrape_page_no_attempt, Hmr.
  - intros a b. unfold scrape_multiple_pages.
    destruct (pages_loop_no_attempt w b (range2 a (b + 1)) [] s Hmr)
      as (f & s' & -> & Hg & Hw & Hc).
    cbn [fst snd]. auto.
Qed.

Lemma no_retry_budget_witness :
  (forall url,
      fetch_page Samples.healthy url (init (3 # 1, 6 # 1)%Q 0)
        = (Normal None, init (3 # 1, 6 # 1)%Q 0)) /\
  (forall page_num,
      scrape_page Samples.healthy page_num (init (3 # 1, 6 # 1)%Q 0)
        = (Normal [], init (3 # 1, 6 # 1)%Q 0)) /\
  (forall a b,
      fst (scrape_multiple_pages Samples.healthy a b (init (3 # 1, 6 # 1)%Q 0))
        = Normal [] /\
      gets (snd (scrape_multiple_pages Samples.healthy a b (init (3 # 1, 6 # 1)%Q 0)))
        = 0%nat /\
      writes (snd (scrape_multiple_pages Samples.healthy a b (init (3 # 1, 6 # 1)%Q 0)))
        = 0%nat /\
      request_count
        (snd (scrape_multiple_pages Samples.healthy a b (init (3 # 1, 6 # 1)%Q 0))) = 0).
Proof.
  apply (no_retry_budget Samples.healthy (init (3 # 1, 6 # 1)%Q 0)).
  simpl. lia.
Defined.
